(** * HomeView: the home view of the Tkinter AI GUI

    A shallow embedding of [app/views/home_view.py]: the view object is a
    record of the attributes the methods read and write, every method is a
    function on that record, and the collaborators (the model controller, the
    application window, the file system, the clipboard) are explicit
    arguments or logs of the calls they received. *)

From Stdlib Require Import ZArith NArith List String Ascii Bool Lia.
From stdpp Require Import base option list gmap strings fin_maps.
Import ListNotations.

Local Open Scope string_scope.
Local Open Scope list_scope.

(** ** Python strings *)

(** A Python [str] whose length matters (the text widget's content, the
    clipboard) is a list of Unicode code points; [len] is [length] and
    [s[:n]] is [firstn n s].  Labels, messages and paths, which the code only
    compares or tests for an ASCII prefix or suffix, are byte strings. *)
Abbreviation pystr := (list N).

Definition str (s : string) : pystr := map N_of_ascii (list_ascii_of_string s).

(** [str.isspace] for one code point: the characters [str.strip()] removes. *)
Definition isspace (c : N) : bool :=
  ((9 <=? c) && (c <=? 13) || (28 <=? c) && (c <=? 32) || (c =? 133) || (c =? 160)
   || (c =? 5760) || (8192 <=? c) && (c <=? 8202) || (c =? 8232) || (c =? 8233)
   || (c =? 8239) || (c =? 8287) || (c =? 12288))%N.

Fixpoint lstrip (s : pystr) : pystr :=
  match s with
  | c :: r => if isspace c then lstrip r else s
  | [] => []
  end.

Definition rstrip (s : pystr) : pystr := rev (lstrip (rev s)).

Definition strip (s : pystr) : pystr := rstrip (lstrip s).

(** [s.lower()] on the ASCII letters; no other character lower-cases to one
    of the letters of the tested prefixes and suffixes. *)
Definition lower_ascii (c : ascii) : ascii :=
  let n := nat_of_ascii c in
  if (65 <=? n)%nat && (n <=? 90)%nat then ascii_of_nat (n + 32) else c.

Fixpoint lower (s : string) : string :=
  match s with
  | EmptyString => EmptyString
  | String c r => String (lower_ascii c) (lower r)
  end.

Definition startswith (s p : string) : bool := String.prefix p s.

Definition endswith (s p : string) : bool :=
  let n := String.length s in
  let m := String.length p in
  (m <=? n)%nat && String.eqb (String.substring (n - m) m s) p.

(** Truthiness of an attribute that is [None] or a [str]. *)
Definition truthy_str (o : option string) : bool :=
  match o with
  | Some s => negb (String.eqb s "")
  | None => false
  end.

(** ** Widgets and collaborators *)

(** The [state] option of a Tk widget. *)
Inductive wstate := normal | readonly | disabled.

#[global] Instance wstate_eq_dec : EqDecision wstate.
Proof. solve_decision. Defined.

(** A PIL image object: [Image.open] gives a lazy handle on a file, whose
    pixel data is decoded on first use; [Image.new] gives an in-memory
    image. *)
Inductive image :=
  | ImageFile (path : string)
  | ImageNew (mode : string) (size : Z * Z) (color : Z * Z * Z).

(** [ImageTk.PhotoImage] of a copy thumbnailed into a bounding box. *)
Inductive photo := PhotoImage (src : image) (box : Z * Z).

Inductive task_kind := image_task | sentiment_task.

(** The value of [self.selected_file] or [self.preview_image] as passed to
    the controller. *)
Inductive pyval :=
  | PyNone
  | PyStr (s : string)
  | PyImage (img : image).

Definition of_file (o : option string) : pyval :=
  match o with Some s => PyStr s | None => PyNone end.

Definition of_image (o : option image) : pyval :=
  match o with Some img => PyImage img | None => PyNone end.

(** The calls the model controller received; the callback is always
    [self._on_result]. *)
Inductive request :=
  | run_image_caption (image_input : pyval)
  | run_sentiment (txt : pystr).

(** Children of the output panel. *)
Inductive out_widget :=
  | LoadingFrame
  | ErrorLabel (msg : string).

(** Calls to the decorative helpers of the view whose bodies are not part of
    the source at hand. *)
Inductive helper_call :=
  | border_btn_effect
  | update_info_panel (task_label : string).

Record TextWidget := { content : pystr; fg : string; width : Z; height : Z }.
Record Button := { btn_state : wstate; btn_text : string }.
Record Label := { lbl_image : option photo; lbl_text : string }.

(** One [grid_configure] of a column wrapper and the [rowconfigure] weights. *)
Record GridCfg := {
  g_row : Z; g_column : Z; g_padx : Z * Z; g_pady : Z * Z;
  g_sticky : string; g_columnspan : Z }.

Record Layout := {
  row_weight0 : Z; row_weight1 : Z; row_weight2 : Z;
  left_wrap : GridCfg; center_wrap : GridCfg; right_wrap : GridCfg }.

(** The part of the application window the view talks to. *)
Record MainApp := {
  status_label : string; status_running : bool; last_error : option string }.

(** Modelled from the spec: [MainApp.set_status] is called by the view but
    its body is not in the source; per section 4.1 it updates the single-line
    status label and toggles the progress indicator. *)
Definition set_status (msg : string) (is_running : bool) (a : MainApp) : MainApp :=
  {| status_label := msg; status_running := is_running; last_error := last_error a |}.

(** The attributes of a [HomeView] instance.  [selectors] holds those of the
    attributes [task_select], [task_cb], [task_menu], [task_option] that
    exist, with the [state] of the widget; [_task_prev_state] is [None]
    until the attribute is first assigned.  [text_input] excludes the final
    newline Tk appends on [get]. *)
Record HomeView := {
  controller : list request;
  app : option MainApp;
  helper_calls : list helper_call;
  selected_file : option string;
  preview_image : option image;
  running : bool;
  task_var : string;
  lang_var : string;
  text_input : TextWidget;
  image_input_frame : bool;
  text_input_frame : bool;
  selectors : gmap string wstate;
  _task_prev_state : option (gmap string (option wstate));
  run_btn : Button;
  output_frame : list (nat * out_widget);
  widget_counter : nat;
  preview_box : Label;
  _preview_img : option photo;
  grid : Layout }.

(** Attribute assignment. *)
Definition set_controller (x : list request) (v : HomeView) : HomeView :=
  {| controller := x; app := app v; helper_calls := helper_calls v;
     selected_file := selected_file v; preview_image := preview_image v;
     running := running v; task_var := task_var v; lang_var := lang_var v;
     text_input := text_input v; image_input_frame := image_input_frame v;
     text_input_frame := text_input_frame v; selectors := selectors v;
     _task_prev_state := _task_prev_state v; run_btn := run_btn v;
     output_frame := output_frame v; widget_counter := widget_counter v;
     preview_box := preview_box v; _preview_img := _preview_img v; grid := grid v |}.

Definition set_app (x : option MainApp) (v : HomeView) : HomeView :=
  {| controller := controller v; app := x; helper_calls := helper_calls v;
     selected_file := selected_file v; preview_image := preview_image v;
     running := running v; task_var := task_var v; lang_var := lang_var v;
     text_input := text_input v; image_input_frame := image_input_frame v;
     text_input_frame := text_input_frame v; selectors := selectors v;
     _task_prev_state := _task_prev_state v; run_btn := run_btn v;
     output_frame := output_frame v; widget_counter := widget_counter v;
     preview_box := preview_box v; _preview_img := _preview_img v; grid := grid v |}.

Definition set_helper_calls (x : list helper_call) (v : HomeView) : HomeView :=
  {| controller := controller v; app := app v; helper_calls := x;
     selected_file := selected_file v; preview_image := preview_image v;
     running := running v; task_var := task_var v; lang_var := lang_var v;
     text_input := text_input v; image_input_frame := image_input_frame v;
     text_input_frame := text_input_frame v; selectors := selectors v;
     _task_prev_state := _task_prev_state v; run_btn := run_btn v;
     output_frame := output_frame v; widget_counter := widget_counter v;
     preview_box := preview_box v; _preview_img := _preview_img v; grid := grid v |}.

Definition set_selected_file (x : option string) (v : HomeView) : HomeView :=
  {| controller := controller v; app := app v; helper_calls := helper_calls v;
     selected_file := x; preview_image := preview_image v; running := running v;
     task_var := task_var v; lang_var := lang_var v; text_input := text_input v;
     image_input_frame := image_input_frame v; text_input_frame := text_input_frame v;
     selectors := selectors v; _task_prev_state := _task_prev_state v; run_btn := run_btn v;
     output_frame := output_frame v; widget_counter := widget_counter v;
     preview_box := preview_box v; _preview_img := _preview_img v; grid := grid v |}.

Definition set_preview_image (x : option image) (v : HomeView) : HomeView :=
  {| controller := controller v; app := app v; helper_calls := helper_calls v;
     selected_file := selected_file v; preview_image := x; running := running v;
     task_var := task_var v; lang_var := lang_var v; text_input := text_input v;
     image_input_frame := image_input_frame v; text_input_frame := text_input_frame v;
     selectors := selectors v; _task_prev_state := _task_prev_state v; run_btn := run_btn v;
     output_frame := output_frame v; widget_counter := widget_counter v;
     preview_box := preview_box v; _preview_img := _preview_img v; grid := grid v |}.

Definition set_running (x : bool) (v : HomeView) : HomeView :=
  {| controller := controller v; app := app v; helper_calls := helper_calls v;
     selected_file := selected_file v; preview_image := preview_image v; running := x;
     task_var := task_var v; lang_var := lang_var v; text_input := text_input v;
     image_input_frame := image_input_frame v; text_input_frame := text_input_frame v;
     selectors := selectors v; _task_prev_state := _task_prev_state v; run_btn := run_btn v;
     output_frame := output_frame v; widget_counter := widget_counter v;
     preview_box := preview_box v; _preview_img := _preview_img v; grid := grid v |}.

Definition set_task_var (x : string) (v : HomeView) : HomeView :=
  {| controller := controller v; app := app v; helper_calls := helper_calls v;
     selected_file := selected_file v; preview_image := preview_image v;
     running := running v; task_var := x; lang_var := lang_var v;
     text_input := text_input v; image_input_frame := image_input_frame v;
     text_input_frame := text_input_frame v; selectors := selectors v;
     _task_prev_state := _task_prev_state v; run_btn := run_btn v;
     output_frame := output_frame v; widget_counter := widget_counter v;
     preview_box := preview_box v; _preview_img := _preview_img v; grid := grid v |}.

Definition set_lang_var (x : string) (v : HomeView) : HomeView :=
  {| controller := controller v; app := app v; helper_calls := helper_calls v;
     selected_file := selected_file v; preview_image := preview_image v;
     running := running v; task_var := task_var v; lang_var := x;
     text_input := text_input v; image_input_frame := image_input_frame v;
     text_input_frame := text_input_frame v; selectors := selectors v;
     _task_prev_state := _task_prev_state v; run_btn := run_btn v;
     output_frame := output_frame v; widget_counter := widget_counter v;
     preview_box := preview_box v; _preview_img := _preview_img v; grid := grid v |}.

Definition set_text_input (x : TextWidget) (v : HomeView) : HomeView :=
  {| controller := controller v; app := app v; helper_calls := helper_calls v;
     selected_file := selected_file v; preview_image := preview_image v;
     running := running v; task_var := task_var v; lang_var := lang_var v; text_input := x;
     image_input_frame := image_input_frame v; text_input_frame := text_input_frame v;
     selectors := selectors v; _task_prev_state := _task_prev_state v; run_btn := run_btn v;
     output_frame := output_frame v; widget_counter := widget_counter v;
     preview_box := preview_box v; _preview_img := _preview_img v; grid := grid v |}.

Definition set_image_input_frame (x : bool) (v : HomeView) : HomeView :=
  {| controller := controller v; app := app v; helper_calls := helper_calls v;
     selected_file := selected_file v; preview_image := preview_image v;
     running := running v; task_var := task_var v; lang_var := lang_var v;
     text_input := text_input v; image_input_frame := x;
     text_input_frame := text_input_frame v; selectors := selectors v;
     _task_prev_state := _task_prev_state v; run_btn := run_btn v;
     output_frame := output_frame v; widget_counter := widget_counter v;
     preview_box := preview_box v; _preview_img := _preview_img v; grid := grid v |}.

Definition set_text_input_frame (x : bool) (v : HomeView) : HomeView :=
  {| controller := controller v; app := app v; helper_calls := helper_calls v;
     selected_file := selected_file v; preview_image := preview_image v;
     running := running v; task_var := task_var v; lang_var := lang_var v;
     text_input := text_input v; image_input_frame := image_input_frame v;
     text_input_frame := x; selectors := selectors v;
     _task_prev_state := _task_prev_state v; run_btn := run_btn v;
     output_frame := output_frame v; widget_counter := widget_counter v;
     preview_box := preview_box v; _preview_img := _preview_img v; grid := grid v |}.

Definition set_selectors (x : gmap string wstate) (v : HomeView) : HomeView :=
  {| controller := controller v; app := app v; helper_calls := helper_calls v;
     selected_file := selected_file v; preview_image := preview_image v;
     running := running v; task_var := task_var v; lang_var := lang_var v;
     text_input := text_input v; image_input_frame := image_input_frame v;
     text_input_frame := text_input_frame v; selectors := x;
     _task_prev_state := _task_prev_state v; run_btn := run_btn v;
     output_frame := output_frame v; widget_counter := widget_counter v;
     preview_box := preview_box v; _preview_img := _preview_img v; grid := grid v |}.

Definition set_task_prev_state (x : option (gmap string (option wstate))) (v : HomeView) : HomeView :=
  {| controller := controller v; app := app v; helper_calls := helper_calls v;
     selected_file := selected_file v; preview_image := preview_image v;
     running := running v; task_var := task_var v; lang_var := lang_var v;
     text_input := text_input v; image_input_frame := image_input_frame v;
     text_input_frame := text_input_frame v; selectors := selectors v;
     _task_prev_state := x; run_btn := run_btn v; output_frame := output_frame v;
     widget_counter := widget_counter v; preview_box := preview_box v;
     _preview_img := _preview_img v; grid := grid v |}.

Definition set_run_btn (x : Button) (v : HomeView) : HomeView :=
  {| controller := controller v; app := app v; helper_calls := helper_calls v;
     selected_file := selected_file v; preview_image := preview_image v;
     running := running v; task_var := task_var v; lang_var := lang_var v;
     text_input := text_input v; image_input_frame := image_input_frame v;
     text_input_frame := text_input_frame v; selectors := selectors v;
     _task_prev_state := _task_prev_state v; run_btn := x; output_frame := output_frame v;
     widget_counter := widget_counter v; preview_box := preview_box v;
     _preview_img := _preview_img v; grid := grid v |}.

Definition set_output_frame (x : list (nat * out_widget)) (v : HomeView) : HomeView :=
  {| controller := controller v; app := app v; helper_calls := helper_calls v;
     selected_file := selected_file v; preview_image := preview_image v;
     running := running v; task_var := task_var v; lang_var := lang_var v;
     text_input := text_input v; image_input_frame := image_input_frame v;
     text_input_frame := text_input_frame v; selectors := selectors v;
     _task_prev_state := _task_prev_state v; run_btn := run_btn v; output_frame := x;
     widget_counter := widget_counter v; preview_box := preview_box v;
     _preview_img := _preview_img v; grid := grid v |}.

Definition set_widget_counter (x : nat) (v : HomeView) : HomeView :=
  {| controller := controller v; app := app v; helper_calls := helper_calls v;
     selected_file := selected_file v; preview_image := preview_image v;
     running := running v; task_var := task_var v; lang_var := lang_var v;
     text_input := text_input v; image_input_frame := image_input_frame v;
     text_input_frame := text_input_frame v; selectors := selectors v;
     _task_prev_state := _task_prev_state v; run_btn := run_btn v;
     output_frame := output_frame v; widget_counter := x; preview_box := preview_box v;
     _preview_img := _preview_img v; grid := grid v |}.

Definition set_preview_box (x : Label) (v : HomeView) : HomeView :=
  {| controller := controller v; app := app v; helper_calls := helper_calls v;
     selected_file := selected_file v; preview_image := preview_image v;
     running := running v; task_var := task_var v; lang_var := lang_var v;
     text_input := text_input v; image_input_frame := image_input_frame v;
     text_input_frame := text_input_frame v; selectors := selectors v;
     _task_prev_state := _task_prev_state v; run_btn := run_btn v;
     output_frame := output_frame v; widget_counter := widget_counter v; preview_box := x;
     _preview_img := _preview_img v; grid := grid v |}.

Definition set_preview_img (x : option photo) (v : HomeView) : HomeView :=
  {| controller := controller v; app := app v; helper_calls := helper_calls v;
     selected_file := selected_file v; preview_image := preview_image v;
     running := running v; task_var := task_var v; lang_var := lang_var v;
     text_input := text_input v; image_input_frame := image_input_frame v;
     text_input_frame := text_input_frame v; selectors := selectors v;
     _task_prev_state := _task_prev_state v; run_btn := run_btn v;
     output_frame := output_frame v; widget_counter := widget_counter v;
     preview_box := preview_box v; _preview_img := x; grid := grid v |}.

Definition set_grid (x : Layout) (v : HomeView) : HomeView :=
  {| controller := controller v; app := app v; helper_calls := helper_calls v;
     selected_file := selected_file v; preview_image := preview_image v;
     running := running v; task_var := task_var v; lang_var := lang_var v;
     text_input := text_input v; image_input_frame := image_input_frame v;
     text_input_frame := text_input_frame v; selectors := selectors v;
     _task_prev_state := _task_prev_state v; run_btn := run_btn v;
     output_frame := output_frame v; widget_counter := widget_counter v;
     preview_box := preview_box v; _preview_img := _preview_img v; grid := x |}.


(** ** Widget operations *)

(** [text.get("1.0", "end")]: the content followed by Tk's final newline. *)
Definition text_get (t : TextWidget) : pystr := content t ++ [10%N].

(** [text.delete("1.0", "end")] followed by [text.insert("1.0", s)]. *)
Definition text_replace (s : pystr) (t : TextWidget) : TextWidget :=
  {| content := s; fg := fg t; width := width t; height := height t |}.

Definition text_configure_fg (c : string) (t : TextWidget) : TextWidget :=
  {| content := content t; fg := c; width := width t; height := height t |}.

Definition text_configure_size (w h : Z) (t : TextWidget) : TextWidget :=
  {| content := content t; fg := fg t; width := w; height := h |}.

(** Creating a child of the output panel and packing it; the child is
    identified by the value of [widget_counter] at its creation. *)
Definition pack_output (w : out_widget) (v : HomeView) : HomeView :=
  set_widget_counter (S (widget_counter v))
    (set_output_frame (output_frame v ++ [(widget_counter v, w)]) v).

(** [w.destroy()] for a child of the output panel. *)
Definition destroy_output (id : nat) (v : HomeView) : HomeView :=
  set_output_frame (filter (λ c, c.1 ≠ id) (output_frame v)) v.

(** [for w in self.output_frame.winfo_children(): w.destroy()] *)
Definition clear_output (v : HomeView) : HomeView := set_output_frame [] v.

(** [if self.app: self.app.set_status(msg, running=r)] *)
Definition app_set_status (msg : string) (r : bool) (v : HomeView) : HomeView :=
  set_app (set_status msg r <$> app v) v.

Definition call_helper (c : helper_call) (v : HomeView) : HomeView :=
  set_helper_calls (helper_calls v ++ [c]) v.

(** Modelled from the spec: [_border_btn_effect] and [_update_info_panel]
    are called by the source but their bodies are not part of it; per
    sections 2 and 4.2 they decorate the run control and refresh the static
    informational panels, so a call is recorded and touches nothing else. *)
Definition _border_btn_effect (v : HomeView) : HomeView :=
  call_helper border_btn_effect v.

Definition _update_info_panel (v : HomeView) : HomeView :=
  call_helper (update_info_panel (task_var v)) v.

Definition placeholder_text : pystr :=
  str "Type or paste text here " ++ [8212%N] ++ str " up to 3000 characters".

(** ** Responsive layout *)

(** The single-column layout: the three wrappers in rows 0, 1 and 2 of
    column 0, each spanning the three columns, the output row expanding. *)
Definition stacked : Layout :=
  {| row_weight0 := 0; row_weight1 := 1; row_weight2 := 0;
     left_wrap := {| g_row := 0; g_column := 0; g_padx := (0, 0)%Z; g_pady := (0, 8)%Z;
                     g_sticky := "nswe"; g_columnspan := 3 |};
     center_wrap := {| g_row := 1; g_column := 0; g_padx := (0, 0)%Z; g_pady := (0, 8)%Z;
                       g_sticky := "nswe"; g_columnspan := 3 |};
     right_wrap := {| g_row := 2; g_column := 0; g_padx := (0, 0)%Z; g_pady := (0, 0)%Z;
                      g_sticky := "nswe"; g_columnspan := 3 |} |}.

(** The three-column layout, which is also the one [_build_ui] sets up: the
    wrappers in columns 0, 1 and 2 of row 0. *)
Definition side_by_side : Layout :=
  {| row_weight0 := 1; row_weight1 := 0; row_weight2 := 0;
     left_wrap := {| g_row := 0; g_column := 0; g_padx := (0, 0)%Z; g_pady := (0, 0)%Z;
                     g_sticky := "nswe"; g_columnspan := 1 |};
     center_wrap := {| g_row := 0; g_column := 1; g_padx := (12, 12)%Z; g_pady := (0, 0)%Z;
                       g_sticky := "nswe"; g_columnspan := 1 |};
     right_wrap := {| g_row := 0; g_column := 2; g_padx := (0, 0)%Z; g_pady := (0, 0)%Z;
                      g_sticky := "nswe"; g_columnspan := 1 |} |}.

Inductive wrapper := the_left_wrap | the_center_wrap | the_right_wrap.

(** [self.rowconfigure(i, weight=w)] for the three rows the view uses. *)
Definition rowconfigure (i : nat) (weight : Z) (l : Layout) : Layout :=
  match i with
  | 0 => {| row_weight0 := weight; row_weight1 := row_weight1 l;
            row_weight2 := row_weight2 l; left_wrap := left_wrap l;
            center_wrap := center_wrap l; right_wrap := right_wrap l |}
  | 1 => {| row_weight0 := row_weight0 l; row_weight1 := weight;
            row_weight2 := row_weight2 l; left_wrap := left_wrap l;
            center_wrap := center_wrap l; right_wrap := right_wrap l |}
  | 2 => {| row_weight0 := row_weight0 l; row_weight1 := row_weight1 l;
            row_weight2 := weight; left_wrap := left_wrap l;
            center_wrap := center_wrap l; right_wrap := right_wrap l |}
  | _ => l
  end.

(** [w.grid_configure(row=, column=, padx=, pady=, sticky=, columnspan=)]:
    the six options the handler passes replace the ones the wrapper had. *)
Definition grid_configure (w : wrapper) (row column : Z) (padx pady : Z * Z)
    (sticky : string) (columnspan : Z) (l : Layout) : Layout :=
  let cfg := {| g_row := row; g_column := column; g_padx := padx; g_pady := pady;
                g_sticky := sticky; g_columnspan := columnspan |} in
  match w with
  | the_left_wrap =>
      {| row_weight0 := row_weight0 l; row_weight1 := row_weight1 l;
         row_weight2 := row_weight2 l; left_wrap := cfg;
         center_wrap := center_wrap l; right_wrap := right_wrap l |}
  | the_center_wrap =>
      {| row_weight0 := row_weight0 l; row_weight1 := row_weight1 l;
         row_weight2 := row_weight2 l; left_wrap := left_wrap l;
         center_wrap := cfg; right_wrap := right_wrap l |}
  | the_right_wrap =>
      {| row_weight0 := row_weight0 l; row_weight1 := row_weight1 l;
         row_weight2 := row_weight2 l; left_wrap := left_wrap l;
         center_wrap := center_wrap l; right_wrap := cfg |}
  end.

(** [_on_resize]; [winfo_width] is what [self.winfo_width()] returns. *)
Definition _on_resize (winfo_width : Z) (v : HomeView) : HomeView :=
  let w := if (winfo_width =? 0)%Z then 1000%Z else winfo_width in
  let compact := (w <? 900)%Z in
  if compact then
    let l := rowconfigure 0 0 (grid v) in
    let l := rowconfigure 1 1 l in
    let l := rowconfigure 2 0 l in
    let l := grid_configure the_left_wrap 0 0 (0, 0)%Z (0, 8)%Z "nswe" 3 l in
    let l := grid_configure the_center_wrap 1 0 (0, 0)%Z (0, 8)%Z "nswe" 3 l in
    let l := grid_configure the_right_wrap 2 0 (0, 0)%Z (0, 0)%Z "nswe" 3 l in
    set_grid l v
  else
    let l := rowconfigure 0 1 (grid v) in
    let l := rowconfigure 1 0 l in
    let l := rowconfigure 2 0 l in
    let l := grid_configure the_left_wrap 0 0 (0, 0)%Z (0, 0)%Z "nswe" 1 l in
    let l := grid_configure the_center_wrap 0 1 (12, 12)%Z (0, 0)%Z "nswe" 1 l in
    let l := grid_configure the_right_wrap 0 2 (0, 0)%Z (0, 0)%Z "nswe" 1 l in
    set_grid l v.

(** ** Text input *)

Definition _set_placeholder (v : HomeView) : HomeView :=
  set_text_input (text_configure_fg "#888" (text_replace placeholder_text (text_input v))) v.

Definition _clear_placeholder (v : HomeView) : HomeView :=
  if decide (strip (text_get (text_input v)) = placeholder_text)
  then set_text_input (text_configure_fg "#000" (text_replace [] (text_input v))) v
  else v.

Definition _restore_placeholder (v : HomeView) : HomeView :=
  match strip (text_get (text_input v)) with
  | [] => _set_placeholder v
  | _ => v
  end.

Definition _enforce_char_limit (v : HomeView) : HomeView :=
  let text := strip (text_get (text_input v)) in
  if (3000 <? length text)%nat
  then set_text_input
         (text_configure_fg "#000" (text_replace (firstn 3000 text) (text_input v))) v
  else v.

(** [paste_clipboard]; [clipboard] is what [pyperclip.paste()] returns, or
    [None] when the import or the call raises. *)
Definition paste_clipboard (clipboard : option pystr) (v : HomeView) : HomeView :=
  match clipboard with
  | Some (c :: r) =>
      let txt := c :: r in
      set_text_input
        (text_configure_fg "#000" (text_replace (firstn 3000 txt) (text_input v))) v
  | Some [] => v
  | None => v
  end.

Definition use_sample_text (v : HomeView) : HomeView :=
  let sample := str "I absolutely love this product. It exceeded my expectations!" in
  set_text_input (text_configure_fg "#000" (text_replace sample (text_input v))) v.

(** ** Run lifecycle *)

Definition selector_names : list string :=
  ["task_select"; "task_cb"; "task_menu"; "task_option"].

(** One round of the loop that opens [run_task]: [w = getattr(self, name,
    None)]; if it exists, its [state] is remembered and set to [disabled].
    The selectors are widgets with a [state] option, so [cget] and
    [configure] do not raise; the snapshot still has optional values, for the
    [None] the source stores when [cget] raises. *)
Definition remember_and_disable (v : HomeView) (name : string) : HomeView :=
  match selectors v !! name with
  | Some s =>
      let prev := default ∅ (_task_prev_state v) in
      set_selectors (<[name := disabled]> (selectors v))
        (set_task_prev_state (Some (<[name := Some s]> prev)) v)
  | None => v
  end.

(** The whole loop, after [self._task_prev_state = {}]. *)
Definition remember_and_disable_all (v : HomeView) : HomeView :=
  foldl remember_and_disable (set_task_prev_state (Some ∅) v) selector_names.

(** The loop of [_reset_run_state] over [prev.items()]: a selector that
    still exists gets the remembered state, or [normal] when [None] was
    remembered.  The rounds touch distinct widgets, so their order is
    immaterial. *)
Definition restore_one (name : string) (state : option wstate)
    (sels : gmap string wstate) : gmap string wstate :=
  match sels !! name with
  | None => sels
  | Some _ => <[name := default normal state]> sels
  end.

(** [_reset_run_state]; [if prev:] is false for a missing attribute and for
    an empty dictionary. *)
Definition _reset_run_state (v : HomeView) : HomeView :=
  let v := set_running false v in
  let v :=
    match _task_prev_state v with
    | Some prev =>
        if decide (prev = ∅) then v
        else set_task_prev_state (Some ∅)
               (set_selectors (map_fold restore_one (selectors v) prev) v)
    | None => v
    end in
  let v := set_run_btn {| btn_state := normal; btn_text := "Run" |} v in
  app_set_status "Ready" false v.

Definition record_error (msg : string) (a : MainApp) : MainApp :=
  {| status_label := status_label a; status_running := status_running a;
     last_error := Some msg |}.

(** Modelled from the spec: [_handle_error] is called by the source but its
    body is not part of it.  Per section 7 an input-validation error is
    reported through an inline message and the shared last-error field and
    does not change the run state; per section 4.3 a local rejection does not
    enter the teardown of the running state. *)
Definition _handle_error (msg : string) (v : HomeView) : HomeView :=
  let v := pack_output (ErrorLabel msg) v in
  set_app (record_error msg <$> app v) v.

(** A call of the controller; its completion callback runs later, from
    the event loop. *)
Definition dispatch (r : request) (v : HomeView) : HomeView :=
  set_controller (controller v ++ [r]) v.

(** [run_task]; [loading_frame] is the frame created just before the
    running flag is set. *)
Definition run_task (v : HomeView) : HomeView :=
  let v := remember_and_disable_all v in
  if running v then v else
  let v := _border_btn_effect v in
  let task_label := task_var v in
  let task := if startswith (lower task_label) "image" then image_task else sentiment_task in
  let v := clear_output v in
  let v := _update_info_panel v in
  let loading_frame := widget_counter v in
  let v := pack_output LoadingFrame v in
  let v := set_running true v in
  let v := app_set_status "Running…" true v in
  let v := set_run_btn {| btn_state := disabled; btn_text := "Running…" |} v in
  match task with
  | image_task =>
      if negb (truthy_str (selected_file v) || bool_decide (is_Some (preview_image v)))
      then destroy_output loading_frame (_handle_error "No image selected" v)
      else
        let image_input :=
          if truthy_str (selected_file v) then of_file (selected_file v)
          else of_image (preview_image v) in
        dispatch (run_image_caption image_input) v
  | sentiment_task =>
      let txt := strip (text_get (text_input v)) in
      if bool_decide (txt = []) || bool_decide (txt = placeholder_text)
      then destroy_output loading_frame (_handle_error "No text entered" v)
      else
        let lang := lang_var v in
        let txt :=
          if String.eqb lang "Auto-detect" then txt
          else txt ++ str " (in " ++ str lang ++ str ")" in
        dispatch (run_sentiment txt) v
  end.

(** ** Task selection *)

Definition _toggle_inputs (v : HomeView) : HomeView :=
  let task_label := task_var v in
  if startswith (lower task_label) "image" then
    let v := set_text_input_frame false v in
    let v := set_image_input_frame true v in
    set_text_input (text_configure_size 0 0 (text_input v)) v
  else
    let v := set_image_input_frame false v in
    let v := set_text_input_frame true v in
    set_text_input (text_configure_size 40 4 (text_input v)) v.

(** The [<<ComboboxSelected>>] binding: Tk has stored the chosen label in
    [task_var], then [_toggle_inputs] and [_update_info_panel] run. *)
Definition on_task_selected (label : string) (v : HomeView) : HomeView :=
  _update_info_panel (_toggle_inputs (set_task_var label v)).

(** ** Construction *)

(** [__init__] and [_build_ui]: the attributes after construction, for a
    view attached to [the_app] (or to none). *)
Definition HomeView_init (the_app : option MainApp) : HomeView :=
  let v :=
    {| controller := []; app := the_app; helper_calls := [];
       selected_file := None; preview_image := None; running := false;
       task_var := "Image to Text"; lang_var := "Auto-detect";
       text_input := {| content := []; fg := ""; width := 80; height := 7 |};
       image_input_frame := false; text_input_frame := false;
       selectors := {[ "task_menu" := readonly ]}; _task_prev_state := None;
       run_btn := {| btn_state := normal; btn_text := "Run" |};
       output_frame := []; widget_counter := 0;
       preview_box := {| lbl_image := None; lbl_text := "320×240 preview" |};
       _preview_img := None; grid := side_by_side |} in
  _update_info_panel (_toggle_inputs (_set_placeholder v)).

(** The application window as [MainApp.__init__] leaves it. *)
Definition MainApp_init : MainApp :=
  {| status_label := "Ready"; status_running := false; last_error := None |}.

(** ** Image input *)

(** What the methods observe of the process environment: the working
    directory, the file system, and whether PIL can open a file (read its
    header) and load it (decode its pixels).  [os_path_getsize] is [None]
    when [os.path.getsize] raises. *)
Record Env := {
  getcwd : string;
  os_path_join : string → string → string;
  os_path_exists : string → bool;
  os_path_getsize : string → option Z;
  image_opens : string → bool;
  image_loads : string → bool }.

Definition allowed_suffixes : list string := [".png"; ".jpg"; ".jpeg"; ".bmp"].

(** [path.lower().endswith((".png", ".jpg", ".jpeg", ".bmp"))] *)
Definition has_allowed_extension (path : string) : bool :=
  existsb (endswith (lower path)) allowed_suffixes.

Definition max_image_size : Z := 25 * 1024 * 1024.

Section ImageInput.
Variable env : Env.

(** [Image.open(path)]; [None] when it raises. *)
Definition Image_open (path : string) : option image :=
  if image_opens env path then Some (ImageFile path) else None.

(** [pil.copy()], [thumbnail((320, 240))] and [ImageTk.PhotoImage]; [None]
    when the pixel data of a file-backed image cannot be decoded. *)
Definition render (pil : image) : option photo :=
  match pil with
  | ImageFile path =>
      if image_loads env path then Some (PhotoImage pil (320, 240)%Z) else None
  | ImageNew _ _ _ => Some (PhotoImage pil (320, 240)%Z)
  end.

(** [_set_preview]; [None] when it raises, before any attribute changed. *)
Definition _set_preview (pil_image : image) (v : HomeView) : option HomeView :=
  ph ← render pil_image;
  Some (set_preview_box {| lbl_image := Some ph; lbl_text := "" |}
          (set_preview_img (Some ph) v)).

(** [os.path.join(os.getcwd(), "assets", "sample.jpg")] *)
Definition sample_path : string :=
  os_path_join env (os_path_join env (getcwd env) "assets") "sample.jpg".

Definition placeholder_image : image :=
  ImageNew "RGB" (320, 240)%Z (220, 230, 240)%Z.

(** [use_sample_image]; [None] when an exception escapes. *)
Definition use_sample_image (v : HomeView) : option HomeView :=
  let fallback (v : HomeView) :=
    let img := placeholder_image in
    let v := set_preview_image (Some img) v in
    let v := set_selected_file None v in
    _set_preview img v in
  if os_path_exists env sample_path then
    match Image_open sample_path with
    | Some pil =>
        let v1 := set_preview_image (Some pil) v in
        let v1 := set_selected_file (Some sample_path) v1 in
        match _set_preview pil v1 with
        | Some v2 => Some v2
        | None => fallback v1
        end
    | None => fallback v
    end
  else fallback v.

(** [_validate_image]: the returned flag and the view after the call;
    [None] when [os.path.getsize] raises. *)
Definition _validate_image (path : string) (v : HomeView) : option (bool * HomeView) :=
  if negb (has_allowed_extension path)
  then Some (false, _handle_error "Invalid file format. Use PNG, JPG, JPEG, or BMP." v)
  else
    size ← os_path_getsize env path;
    if (max_image_size <? size)%Z
    then Some (false, _handle_error "File too large. Maximum size is 25 MB." v)
    else Some (true, v).

Definition label_configure_text (t : string) (l : Label) : Label :=
  {| lbl_image := lbl_image l; lbl_text := t |}.

(** [choose_file]; [f] is what the file dialog returns, the empty string
    when it is cancelled; [None] when an exception escapes. *)
Definition choose_file (f : string) (v : HomeView) : option HomeView :=
  if String.eqb f "" then Some v else
  r ← _validate_image f v;
  let '(valid, v) := r in
  if negb valid then Some v else
  let v := set_selected_file (Some f) v in
  let on_exception (v : HomeView) :=
    let v := _handle_error "Invalid image file" v in
    set_preview_box (label_configure_text f (preview_box v)) v in
  match Image_open f with
  | Some pil =>
      let v := set_preview_image (Some pil) v in
      match _set_preview pil v with
      | Some v' => Some v'
      | None => Some (on_exception v)
      end
  | None => Some (on_exception v)
  end.

End ImageInput.

(** ** Clearing the view *)

(** [clear_inputs].  The model and info panels it empties are refilled at
    once by [_update_info_panel]; their contents are not among the
    attributes of [HomeView], so only the call is recorded.  The attribute
    [_preview_img] is not reset. *)
Definition clear_inputs (v : HomeView) : HomeView :=
  let v := set_selected_file None v in
  let v := set_preview_image None v in
  let v := set_preview_box {| lbl_image := None; lbl_text := "320×240 preview" |} v in
  let v := _set_placeholder v in
  let v := clear_output v in
  let v := _update_info_panel v in
  _reset_run_state v.

(** ** The main window ([app/gui.py]) *)

(** The geometry [center_window] sets, [f"{w}x{h}+{x}+{y}"], from what
    [winfo_width], [winfo_height], [winfo_screenwidth] and
    [winfo_screenheight] return; [//] is floor division. *)
Record Geometry := { geo_w : Z; geo_h : Z; geo_x : Z; geo_y : Z }.

Definition center_window (winfo_width winfo_height screenwidth screenheight : Z)
    : Geometry :=
  let w := if (winfo_width =? 0)%Z then 1000%Z else winfo_width in
  let h := if (winfo_height =? 0)%Z then 700%Z else winfo_height in
  let x := (screenwidth / 2 - w / 2)%Z in
  let y := (screenheight / 2 - h / 2)%Z in
  {| geo_w := w; geo_h := h; geo_x := x; geo_y := y |}.

(** The navigation bar: the active tab and the [style] of the four
    buttons. *)
Record NavBar := {
  active_nav : string;
  home_btn : string; model_btn : string; help_btn : string; settings_btn : string }.

(** The style one round of the loop of [_apply_nav_styles] gives the button
    of [key]. *)
Definition nav_style (active key : string) : string :=
  if String.eqb key active then "ActiveNav.TButton" else "Nav.TButton".

(** [_apply_nav_styles]: the loop over the four entries of [mapping]. *)
Definition _apply_nav_styles (n : NavBar) : NavBar :=
  {| active_nav := active_nav n;
     home_btn := nav_style (active_nav n) "home";
     model_btn := nav_style (active_nav n) "model";
     help_btn := nav_style (active_nav n) "help";
     settings_btn := nav_style (active_nav n) "settings" |}.

(** The first two statements of [switch_nav]: the target becomes the active
    tab and the buttons are restyled. *)
Definition switch_nav_styles (target : string) (n : NavBar) : NavBar :=
  _apply_nav_styles
    {| active_nav := target; home_btn := home_btn n; model_btn := model_btn n;
       help_btn := help_btn n; settings_btn := settings_btn n |}.

Definition nav_buttons (n : NavBar) : list string :=
  [home_btn n; model_btn n; help_btn n; settings_btn n].

(** ** Auxiliary states and views used in the statements *)

(** Two views that agree on every attribute but [selectors] and
    [_task_prev_state]. *)
Definition same_but_selectors (v c : HomeView) : Prop :=
  controller c = controller v ∧ app c = app v ∧ helper_calls c = helper_calls v
  ∧ selected_file c = selected_file v ∧ preview_image c = preview_image v
  ∧ running c = running v ∧ task_var c = task_var v ∧ lang_var c = lang_var v
  ∧ text_input c = text_input v ∧ image_input_frame c = image_input_frame v
  ∧ text_input_frame c = text_input_frame v ∧ run_btn c = run_btn v
  ∧ output_frame c = output_frame v ∧ widget_counter c = widget_counter v
  ∧ preview_box c = preview_box v ∧ _preview_img c = _preview_img v
  ∧ grid c = grid v.

(** The view between the start of a run and the choice of the task, as a
    function of the view after the selectors were disabled: the output panel
    holds the loading indicator alone. *)
Definition run_started (c : HomeView) : HomeView :=
  set_run_btn {| btn_state := disabled; btn_text := "Running…" |}
    (app_set_status "Running…" true
       (set_running true
          (pack_output LoadingFrame
             (_update_info_panel (clear_output (_border_btn_effect c)))))).

(** The view while a run is in flight: an image was chosen on a fresh view
    attached to the application window, and [run_task] dispatched it. *)
Definition running_view : HomeView :=
  run_task (set_selected_file (Some "photo.png") (HomeView_init (Some MainApp_init))).


(** A view with a preview image from an earlier selection. *)
Definition previewed_view : HomeView :=
  set_preview_image (Some (ImageFile "old.png"))
    (set_selected_file (Some "old.png") (HomeView_init None)).

(** A view whose text widget holds [s]. *)
Definition with_text (s : pystr) (v : HomeView) : HomeView :=
  set_text_input (text_replace s (text_input v)) v.

Definition invalid_format_msg : string :=
  "Invalid file format. Use PNG, JPG, JPEG, or BMP.".

(** An environment for concrete runs: no bundled sample image, one file of
    exactly 25 MB, one file PIL cannot open. *)
Definition demo_env : Env :=
  {| getcwd := "/home/user/app";
     os_path_join := λ a b, a +:+ "/" +:+ b;
     os_path_exists := λ p, negb (String.eqb p "/home/user/app/assets/sample.jpg");
     os_path_getsize :=
       λ p, if String.eqb p "photo.JPG" then Some 26214400%Z else Some 2048%Z;
     image_opens := λ p, negb (String.eqb p "broken.png");
     image_loads := λ _, true |}.

(** ** Further states and environments used in the statements *)

(** A view on the sentiment task with Spanish selected and a short text. *)
Definition sentiment_view : HomeView :=
  set_lang_var "Spanish"
    (with_text (str "  me gusta ") (on_task_selected "Sentiment Analysis" (HomeView_init None))).

(** The message of [_validate_image] for a file over the limit. *)
Definition too_large_msg : string := "File too large. Maximum size is 25 MB.".

(** An environment with one file one byte over the limit. *)
Definition big_env : Env :=
  {| getcwd := "/home/user/app";
     os_path_join := λ a b, a +:+ "/" +:+ b;
     os_path_exists := λ _, true;
     os_path_getsize := λ p, if String.eqb p "huge.bmp" then Some 26214401%Z else Some 2048%Z;
     image_opens := λ _, true;
     image_loads := λ p, negb (String.eqb p "truncated.png") |}.

(** The view [use_sample_image] returns when the bundled image is used, and
    the one it returns when it falls back to the placeholder. *)
Definition sample_view (env : Env) (v : HomeView) : HomeView :=
  set_preview_box
    {| lbl_image := Some (PhotoImage (ImageFile (sample_path env)) (320, 240)%Z);
       lbl_text := "" |}
    (set_preview_img (Some (PhotoImage (ImageFile (sample_path env)) (320, 240)%Z))
       (set_selected_file (Some (sample_path env))
          (set_preview_image (Some (ImageFile (sample_path env))) v))).

Definition fallback_view (v : HomeView) : HomeView :=
  set_preview_box
    {| lbl_image := Some (PhotoImage placeholder_image (320, 240)%Z); lbl_text := "" |}
    (set_preview_img (Some (PhotoImage placeholder_image (320, 240)%Z))
       (set_selected_file None (set_preview_image (Some placeholder_image) v))).

(** The style of the active navigation button and the keys of [mapping] in
    [_apply_nav_styles]. *)
Definition active_style : string := "ActiveNav.TButton".

Definition nav_keys : list string := ["home"; "model"; "help"; "settings"].

Local Open Scope nat_scope.

(** * Properties *)

(** ** Responsive layout *)

Lemma stacked_not_side_by_side : stacked ≠ side_by_side.
Proof. discriminate. Qed.

(** A resize touches the layout alone. *)
Lemma _on_resize_only_grid winfo_width v :
  _on_resize winfo_width v = set_grid (grid (_on_resize winfo_width v)) v.
Proof. unfold _on_resize. by repeat case_match. Qed.

Lemma _on_resize_compact winfo_width v :
  winfo_width ≠ 0%Z → (winfo_width < 900)%Z → grid (_on_resize winfo_width v) = stacked.
Proof.
  intros Hne Hlt. unfold _on_resize.
  destruct (Z.eqb_spec winfo_width 0); [done|].
  destruct (Z.ltb_spec winfo_width 900); [done | lia].
Qed.

Lemma _on_resize_wide winfo_width v :
  winfo_width = 0%Z ∨ (900 ≤ winfo_width)%Z →
  grid (_on_resize winfo_width v) = side_by_side.
Proof.
  intros Hw. unfold _on_resize.
  destruct (Z.eqb_spec winfo_width 0); [done|].
  destruct (Z.ltb_spec winfo_width 900); [lia | done].
Qed.

(** C8 as stated fails at width 0: 0 is below the threshold of 900, and the
    handler, which reads a width of 0 as 1000, chooses the three-column
    layout and not the stacked one. *)
Lemma on_resize_zero_width_is_wide :
  (0 < 900)%Z
  ∧ grid (_on_resize 0 (HomeView_init None)) = side_by_side
  ∧ grid (_on_resize 0 (HomeView_init None)) ≠ stacked.
Proof. split; [lia|]. split; [reflexivity | discriminate]. Qed.

(** C8, amended: the layout after a resize is a function of the measured
    width alone.  It is the single-column stacked layout for every non-zero
    width below 900, and the three-column side-by-side layout for every
    width of 900 or more and for width 0, which the handler reads as 1000.
    The layout the view had before has no influence. *)
Theorem on_resize_layout_of_width (winfo_width : Z) (v v' : HomeView) :
  grid (_on_resize winfo_width v)
  = (if bool_decide (winfo_width ≠ 0 ∧ winfo_width < 900)%Z then stacked else side_by_side)
  ∧ grid (_on_resize winfo_width v) = grid (_on_resize winfo_width v').
Proof.
  assert (Hlayout : ∀ u, grid (_on_resize winfo_width u)
            = if bool_decide (winfo_width ≠ 0 ∧ winfo_width < 900)%Z
              then stacked else side_by_side).
  { intros u. case_bool_decide as Hw.
    - destruct Hw. by apply _on_resize_compact.
    - apply _on_resize_wide. lia. }
  by rewrite !Hlayout.
Qed.

(** ** Task selection *)

(** A toggle changes the visibility of the two input panels and the size of
    the text widget, and nothing else. *)
Lemma _toggle_inputs_frame v :
  ∃ img txt w h,
    _toggle_inputs v
    = set_text_input (text_configure_size w h (text_input v))
        (set_image_input_frame img (set_text_input_frame txt v)).
Proof.
  unfold _toggle_inputs. destruct (startswith _ _).
  - by exists true, false, 0%Z, 0%Z.
  - by exists false, true, 40%Z, 4%Z.
Qed.

(** C7: selecting the sentiment task and then the image task again leaves
    the entered text, the selected file path and the decoded preview image
    as they were, with the text panel shown in between and the image panel
    shown at the end; a toggle changes nothing but the visibility of the two
    input panels and the size of the text widget. *)
Theorem toggle_roundtrip_preserves_inputs (v : HomeView) :
  (content (text_input (on_task_selected "Sentiment Analysis" v)) = content (text_input v)
   ∧ selected_file (on_task_selected "Sentiment Analysis" v) = selected_file v
   ∧ preview_image (on_task_selected "Sentiment Analysis" v) = preview_image v
   ∧ image_input_frame (on_task_selected "Sentiment Analysis" v) = false
   ∧ text_input_frame (on_task_selected "Sentiment Analysis" v) = true)
  ∧ (content (text_input (on_task_selected "Image to Text"
                            (on_task_selected "Sentiment Analysis" v)))
     = content (text_input v)
     ∧ selected_file (on_task_selected "Image to Text"
                        (on_task_selected "Sentiment Analysis" v)) = selected_file v
     ∧ preview_image (on_task_selected "Image to Text"
                        (on_task_selected "Sentiment Analysis" v)) = preview_image v
     ∧ image_input_frame (on_task_selected "Image to Text"
                            (on_task_selected "Sentiment Analysis" v)) = true
     ∧ text_input_frame (on_task_selected "Image to Text"
                           (on_task_selected "Sentiment Analysis" v)) = false)
  ∧ ∀ u, ∃ img txt w h,
      _toggle_inputs u
      = set_text_input (text_configure_size w h (text_input u))
          (set_image_input_frame img (set_text_input_frame txt u)).
Proof.
  split; [by repeat split|]. split; [by repeat split|]. apply _toggle_inputs_frame.
Qed.

(** ** Text input *)

(** Content whose stripped form is within the limit is left as it is. *)
Lemma _enforce_char_limit_within v :
  length (strip (text_get (text_input v))) ≤ 3000 → _enforce_char_limit v = v.
Proof.
  intros Hle. unfold _enforce_char_limit.
  destruct (Nat.ltb_spec 3000 (length (strip (text_get (text_input v))))); [lia | done].
Qed.

(** C4 fails on the code: the key-release handler measures the stripped
    text.  For 3000 letters followed by a space the content is 3001
    characters long, the stripped text has 3000, nothing is truncated, and
    the field keeps all 3001 characters, against the docstring of the handler
    ("Enforce 3000 character limit on text input") and unlike
    [paste_clipboard], which cuts the raw text and leaves 3000 characters for
    the same input. *)
Theorem enforce_char_limit_trailing_space :
  3000 < length (content (text_input
                   (with_text (repeat 97%N 3000 ++ [32%N]) (HomeView_init None))))
  ∧ length (content (text_input (_enforce_char_limit
              (with_text (repeat 97%N 3000 ++ [32%N]) (HomeView_init None))))) = 3001
  ∧ length (content (text_input (_enforce_char_limit
              (with_text (repeat 97%N 3000 ++ [32%N]) (HomeView_init None))))) ≠ 3000
  ∧ length (content (text_input (paste_clipboard (Some (repeat 97%N 3000 ++ [32%N]))
              (HomeView_init None)))) = 3000.
Proof.
  assert (E : length (content (text_input (_enforce_char_limit
            (with_text (repeat 97%N 3000 ++ [32%N]) (HomeView_init None))))) = 3001)
    by (vm_compute; reflexivity).
  rewrite E. split; [|split; [reflexivity | split; [lia | vm_compute; reflexivity]]].
  vm_compute. lia.
Qed.

(** When the stripped text is longer than 3000 characters, the handler
    leaves its first 3000 characters, so that leading whitespace of the
    content is dropped as well. *)
Lemma _enforce_char_limit_truncates v :
  3000 < length (strip (text_get (text_input v))) →
  content (text_input (_enforce_char_limit v))
  = firstn 3000 (strip (text_get (text_input v)))
  ∧ length (content (text_input (_enforce_char_limit v))) = 3000.
Proof.
  intros Hlong. unfold _enforce_char_limit.
  destruct (Nat.ltb_spec 3000 (length (strip (text_get (text_input v))))); [|lia].
  split; [reflexivity|].
  cbn [content text_input set_text_input text_configure_fg text_replace].
  rewrite length_take. lia.
Qed.

(** ** What the reset routine and the error path leave alone *)

Ltac reset_cases :=
  try unfold _handle_error; try unfold _reset_run_state; simpl; repeat case_match;
  reflexivity.

Lemma reset_running v : running (_reset_run_state v) = false.
Proof. reset_cases. Qed.

Lemma reset_run_btn v :
  run_btn (_reset_run_state v) = {| btn_state := normal; btn_text := "Run" |}.
Proof. reset_cases. Qed.

Lemma reset_app v : app (_reset_run_state v) = set_status "Ready" false <$> app v.
Proof. reset_cases. Qed.

Lemma reset_selectors v prev :
  _task_prev_state v = Some prev → prev ≠ ∅ →
  selectors (_reset_run_state v) = map_fold restore_one (selectors v) prev.
Proof.
  intros Hprev Hne. unfold _reset_run_state. simpl. rewrite Hprev.
  by destruct (decide (prev = ∅)).
Qed.

Lemma handle_error_running msg v : running (_handle_error msg v) = running v.
Proof. reset_cases. Qed.

Lemma handle_error_run_btn msg v : run_btn (_handle_error msg v) = run_btn v.
Proof. reset_cases. Qed.

Lemma handle_error_app msg v : app (_handle_error msg v) = record_error msg <$> app v.
Proof. reset_cases. Qed.

Lemma handle_error_controller msg v : controller (_handle_error msg v) = controller v.
Proof. reset_cases. Qed.

Lemma handle_error_output_frame msg v :
  output_frame (_handle_error msg v) = output_frame v ++ [(widget_counter v, ErrorLabel msg)].
Proof. reset_cases. Qed.

Lemma handle_error_selected_file msg v :
  selected_file (_handle_error msg v) = selected_file v.
Proof. reset_cases. Qed.

Lemma handle_error_preview_image msg v :
  preview_image (_handle_error msg v) = preview_image v.
Proof. reset_cases. Qed.

Lemma handle_error_preview_box msg v : preview_box (_handle_error msg v) = preview_box v.
Proof. reset_cases. Qed.

Lemma handle_error_preview_img msg v : _preview_img (_handle_error msg v) = _preview_img v.
Proof. reset_cases. Qed.

Create Rewrite HintDb view_frame.
#[local] Hint Rewrite handle_error_running handle_error_run_btn handle_error_app
  handle_error_controller handle_error_output_frame handle_error_selected_file
  handle_error_preview_image handle_error_preview_box handle_error_preview_img
  : view_frame.

#[local] Opaque _handle_error _reset_run_state.

(** ** Image validation *)

Lemma no_extension_of_empty_path : has_allowed_extension "" = false.
Proof. reflexivity. Qed.

Lemma max_image_size_bytes : max_image_size = 26214400%Z.
Proof. reflexivity. Qed.

Lemma lower_append s p : lower (s +:+ p) = lower s +:+ lower p.
Proof. induction s as [|c s IH]; simpl; [done | by rewrite IH]. Qed.

Lemma string_length_append s p :
  String.length (s +:+ p) = String.length s + String.length p.
Proof. induction s as [|c s IH]; simpl; [done | by rewrite IH]. Qed.

Lemma substring_all p : String.substring 0 (String.length p) p = p.
Proof. induction p as [|c p IH]; simpl; [done | by rewrite IH]. Qed.

Lemma substring_append_tail s p :
  String.substring (String.length s) (String.length p) (s +:+ p) = p.
Proof. induction s as [|c s IH]; simpl; [apply substring_all | done]. Qed.

Lemma endswith_append s p : endswith (s +:+ p) p = true.
Proof.
  unfold endswith. rewrite string_length_append.
  replace (String.length s + String.length p - String.length p) with (String.length s)
    by lia.
  rewrite substring_append_tail, String.eqb_refl, andb_true_r.
  apply Nat.leb_le. lia.
Qed.

(** Every path made of a stem and one of the four suffixes, in any letter
    case, has an allowed extension. *)
Lemma has_allowed_extension_suffix stem suffix :
  lower suffix ∈ allowed_suffixes → has_allowed_extension (stem +:+ suffix) = true.
Proof.
  intros Hin. unfold has_allowed_extension. apply existsb_exists.
  exists (lower suffix). split; [by apply list_elem_of_In|].
  rewrite lower_append. apply endswith_append.
Qed.

Lemma _validate_image_within_limit env path size v :
  has_allowed_extension path = true →
  os_path_getsize env path = Some size →
  (size ≤ max_image_size)%Z →
  _validate_image env path v = Some (true, v).
Proof.
  intros Hext Hsize Hle. unfold _validate_image. rewrite Hext, Hsize. simpl.
  destruct (Z.ltb_spec max_image_size size) as [Hlt|_]; [lia | done].
Qed.

Lemma _validate_image_bad_extension env path v :
  has_allowed_extension path = false →
  _validate_image env path v = Some (false, _handle_error invalid_format_msg v).
Proof. intros Hext. unfold _validate_image. by rewrite Hext. Qed.

(** C5: for every path whose lower-cased form ends in none of [.png],
    [.jpg], [.jpeg], [.bmp], [_validate_image] reports the invalid-format
    error (an error label in the output panel, the last-error field of the
    application window) and returns [False], and [choose_file] leaves the
    selected file path, the preview image and the preview box as they
    were. *)
Theorem invalid_extension_rejected (env : Env) (path : string) (v : HomeView) :
  has_allowed_extension path = false →
  ∃ v1 v2,
    _validate_image env path v = Some (false, v1)
    ∧ (widget_counter v, ErrorLabel invalid_format_msg) ∈ output_frame v1
    ∧ last_error <$> app v1 = (λ _, Some invalid_format_msg) <$> app v
    ∧ choose_file env path v = Some v2
    ∧ selected_file v2 = selected_file v
    ∧ preview_image v2 = preview_image v
    ∧ preview_box v2 = preview_box v
    ∧ _preview_img v2 = _preview_img v.
Proof.
  intros Hext.
  pose proof (_validate_image_bad_extension env path v Hext) as Hval.
  exists (_handle_error invalid_format_msg v).
  assert (Hreported :
    (widget_counter v, ErrorLabel invalid_format_msg)
      ∈ output_frame (_handle_error invalid_format_msg v)
    ∧ last_error <$> app (_handle_error invalid_format_msg v)
      = (λ _, Some invalid_format_msg) <$> app v).
  { rewrite handle_error_output_frame, handle_error_app. split; [set_solver|].
    by destruct (app v). }
  destruct Hreported as [Hlabel Hlast].
  destruct (String.eqb_spec path "") as [->|Hne].
  - by exists v.
  - exists (_handle_error invalid_format_msg v).
    split; [done|]. split; [done|]. split; [done|]. split.
    { unfold choose_file. destruct (String.eqb_spec path ""); [done|]. by rewrite Hval. }
    by autorewrite with view_frame.
Qed.

Lemma invalid_extension_rejected_witness :
  has_allowed_extension "notes.txt" = false
  ∧ ∃ v1 v2,
      _validate_image demo_env "notes.txt" (HomeView_init None) = Some (false, v1)
      ∧ (widget_counter (HomeView_init None), ErrorLabel invalid_format_msg)
          ∈ output_frame v1
      ∧ last_error <$> app v1
        = (λ _, Some invalid_format_msg) <$> app (HomeView_init None)
      ∧ choose_file demo_env "notes.txt" (HomeView_init None) = Some v2
      ∧ selected_file v2 = selected_file (HomeView_init None)
      ∧ preview_image v2 = preview_image (HomeView_init None)
      ∧ preview_box v2 = preview_box (HomeView_init None)
      ∧ _preview_img v2 = _preview_img (HomeView_init None).
Proof.
  split; [reflexivity|].
  exact (invalid_extension_rejected demo_env "notes.txt" (HomeView_init None) eq_refl).
Defined.

(** C6: for every path with an allowed extension whose size on disk is at
    most 25 * 1024 * 1024 bytes, the bound included, [_validate_image]
    returns [True] and changes nothing. *)
Theorem valid_image_accepted (env : Env) (path : string) (size : Z) (v : HomeView) :
  has_allowed_extension path = true →
  os_path_getsize env path = Some size →
  (size ≤ 25 * 1024 * 1024)%Z →
  _validate_image env path v = Some (true, v).
Proof. apply _validate_image_within_limit. Qed.

Lemma valid_image_accepted_witness :
  (has_allowed_extension "photo.JPG" = true
   ∧ os_path_getsize demo_env "photo.JPG" = Some (25 * 1024 * 1024)%Z)
  ∧ _validate_image demo_env "photo.JPG" (HomeView_init None)
    = Some (true, HomeView_init None).
Proof.
  split; [by split|].
  apply (valid_image_accepted demo_env "photo.JPG" (25 * 1024 * 1024)%Z);
    [reflexivity | reflexivity | lia].
Defined.

Lemma choose_file_open_fails env f size v :
  has_allowed_extension f = true →
  os_path_getsize env f = Some size →
  (size ≤ max_image_size)%Z →
  Image_open env f = None →
  choose_file env f v
  = Some (let v := _handle_error "Invalid image file" (set_selected_file (Some f) v) in
          set_preview_box (label_configure_text f (preview_box v)) v).
Proof.
  intros Hext Hsize Hle Hopen.
  unfold choose_file.
  destruct (String.eqb_spec f "") as [->|Hne]; [done|].
  rewrite (_validate_image_within_limit env f size v Hext Hsize Hle).
  cbn [mbind option_bind negb]. by rewrite Hopen.
Qed.

(** When the file opens and the failure comes later, while the preview is
    rendered, [preview_image] already holds the newly opened image. *)
Lemma choose_file_render_fails env f size pil v :
  has_allowed_extension f = true →
  os_path_getsize env f = Some size →
  (size ≤ max_image_size)%Z →
  Image_open env f = Some pil →
  render env pil = None →
  choose_file env f v
  = Some (let v := _handle_error "Invalid image file"
                     (set_preview_image (Some pil) (set_selected_file (Some f) v)) in
          set_preview_box (label_configure_text f (preview_box v)) v).
Proof.
  intros Hext Hsize Hle Hopen Hrender.
  unfold choose_file.
  destruct (String.eqb_spec f "") as [->|Hne]; [done|].
  rewrite (_validate_image_within_limit env f size v Hext Hsize Hle).
  cbn [mbind option_bind negb]. rewrite Hopen.
  unfold _set_preview. by rewrite Hrender.
Qed.

(** C9 as stated fails for a validated file that opens and whose pixels do
    not load: the exception is raised while the preview is rendered, after
    [preview_image] was assigned, so the preview image of the earlier
    selection is replaced by the new one. *)
Lemma choose_file_unloadable_replaces_preview :
  (has_allowed_extension "truncated.png" = true
   ∧ os_path_getsize big_env "truncated.png" = Some 2048%Z
   ∧ (2048 ≤ 25 * 1024 * 1024)%Z)
  ∧ (Image_open big_env "truncated.png" = Some (ImageFile "truncated.png")
     ∧ render big_env (ImageFile "truncated.png") = None)
  ∧ preview_image previewed_view = Some (ImageFile "old.png")
  ∧ ∃ v',
      choose_file big_env "truncated.png" previewed_view = Some v'
      ∧ selected_file v' = Some "truncated.png"
      ∧ preview_image v' = Some (ImageFile "truncated.png")
      ∧ preview_image v' ≠ preview_image previewed_view.
Proof.
  split; [by repeat split|]. split; [by split|]. split; [done|].
  eexists. split; [vm_compute; reflexivity|]. by repeat split.
Qed.

(** C9, amended: for every path that passes validation (allowed extension,
    size at most 25 MB) and whose decoding raises -- [Image.open] raises, or
    it succeeds and rendering the preview raises -- [choose_file] returns
    with [selected_file] set to the new path and the preview box configured
    with the path as its text (its image option untouched); [preview_image]
    is as it was when [Image.open] raised, and is the newly opened image when
    the exception came from rendering the preview. *)
Theorem choose_file_undecodable (env : Env) (f : string) (size : Z) (v : HomeView) :
  has_allowed_extension f = true →
  os_path_getsize env f = Some size →
  (size ≤ 25 * 1024 * 1024)%Z →
  Image_open env f = None
  ∨ (∃ pil, Image_open env f = Some pil ∧ render env pil = None) →
  ∃ v',
    choose_file env f v = Some v'
    ∧ selected_file v' = Some f
    ∧ preview_image v'
      = match Image_open env f with
        | Some pil => Some pil
        | None => preview_image v
        end
    ∧ lbl_text (preview_box v') = f
    ∧ lbl_image (preview_box v') = lbl_image (preview_box v).
Proof.
  intros Hext Hsize Hle [Hopen|(pil & Hopen & Hrender)]; rewrite Hopen.
  - eexists. split; [by apply (choose_file_open_fails env f size)|].
    pose proof (handle_error_selected_file "Invalid image file"
                  (set_selected_file (Some f) v)) as Hfile.
    pose proof (handle_error_preview_image "Invalid image file"
                  (set_selected_file (Some f) v)) as Himage.
    pose proof (handle_error_preview_box "Invalid image file"
                  (set_selected_file (Some f) v)) as Hbox.
    revert Hfile Himage Hbox.
    generalize (_handle_error "Invalid image file" (set_selected_file (Some f) v)).
    intros h Hfile Himage Hbox. simpl in *. by rewrite Hbox.
  - eexists. split; [by apply (choose_file_render_fails env f size pil)|].
    pose proof (handle_error_selected_file "Invalid image file"
                  (set_preview_image (Some pil) (set_selected_file (Some f) v))) as Hfile.
    pose proof (handle_error_preview_image "Invalid image file"
                  (set_preview_image (Some pil) (set_selected_file (Some f) v))) as Himage.
    pose proof (handle_error_preview_box "Invalid image file"
                  (set_preview_image (Some pil) (set_selected_file (Some f) v))) as Hbox.
    revert Hfile Himage Hbox.
    generalize (_handle_error "Invalid image file"
                  (set_preview_image (Some pil) (set_selected_file (Some f) v))).
    intros h Hfile Himage Hbox. simpl in *. by rewrite Hbox.
Qed.

Lemma choose_file_undecodable_witness :
  (has_allowed_extension "truncated.png" = true
   ∧ os_path_getsize big_env "truncated.png" = Some 2048%Z
   ∧ Image_open big_env "truncated.png" = Some (ImageFile "truncated.png")
   ∧ render big_env (ImageFile "truncated.png") = None)
  ∧ ∃ v',
      choose_file big_env "truncated.png" previewed_view = Some v'
      ∧ selected_file v' = Some "truncated.png"
      ∧ preview_image v'
        = match Image_open big_env "truncated.png" with
          | Some pil => Some pil
          | None => preview_image previewed_view
          end
      ∧ lbl_text (preview_box v') = "truncated.png"
      ∧ lbl_image (preview_box v') = lbl_image (preview_box previewed_view).
Proof.
  split; [by repeat split|].
  apply (choose_file_undecodable big_env "truncated.png" 2048%Z previewed_view);
    [reflexivity | reflexivity | lia |].
  right. exists (ImageFile "truncated.png"). by split.
Defined.

(** ** Remembering and restoring the selector states *)

Lemma same_but_selectors_refl v : same_but_selectors v v.
Proof. by repeat split. Qed.

Lemma same_but_selectors_trans u v w :
  same_but_selectors u v → same_but_selectors v w → same_but_selectors u w.
Proof. unfold same_but_selectors. intros H1 H2. intuition congruence. Qed.

Lemma remember_and_disable_same v name :
  same_but_selectors v (remember_and_disable v name).
Proof. unfold remember_and_disable. case_match; by repeat split. Qed.

Lemma foldl_remember_same names : ∀ v,
  same_but_selectors v (foldl remember_and_disable v names).
Proof.
  induction names as [|n names IH]; intros v; simpl.
  - apply same_but_selectors_refl.
  - eapply same_but_selectors_trans; [apply remember_and_disable_same | apply IH].
Qed.

Lemma remember_and_disable_all_same v :
  same_but_selectors v (remember_and_disable_all v).
Proof.
  unfold remember_and_disable_all.
  eapply same_but_selectors_trans; [|apply foldl_remember_same]. by repeat split.
Qed.

(** A name the loop does not visit keeps its widget state and its entry of
    the snapshot. *)
Lemma foldl_remember_other names name : ∀ v,
  name ∉ names →
  selectors (foldl remember_and_disable v names) !! name = selectors v !! name
  ∧ default ∅ (_task_prev_state (foldl remember_and_disable v names)) !! name
    = default ∅ (_task_prev_state v) !! name.
Proof.
  induction names as [|n names IH]; intros v Hnot; simpl; [done|].
  apply not_elem_of_cons in Hnot as [Hne Hnot].
  destruct (IH (remember_and_disable v n) Hnot) as [-> ->].
  unfold remember_and_disable. case_match; simpl; [|done].
  by rewrite !lookup_insert_ne.
Qed.

(** A selector the loop visits is disabled, and its state before the loop
    is remembered. *)
Lemma foldl_remember_captures names name s : ∀ v,
  NoDup names → name ∈ names → selectors v !! name = Some s →
  default ∅ (_task_prev_state (foldl remember_and_disable v names)) !! name
  = Some (Some s)
  ∧ is_Some (_task_prev_state (foldl remember_and_disable v names))
  ∧ selectors (foldl remember_and_disable v names) !! name = Some disabled.
Proof.
  induction names as [|n names IH]; intros v Hnd Hin Hs; [by apply elem_of_nil in Hin|].
  apply NoDup_cons in Hnd as [Hfresh Hnd]. simpl.
  destruct (decide (name = n)) as [->|Hne].
  - assert (Hstep : _task_prev_state (remember_and_disable v n)
                    = Some (<[n := Some s]> (default ∅ (_task_prev_state v)))).
    { unfold remember_and_disable. by rewrite Hs. }
    assert (Hsel : selectors (remember_and_disable v n) !! n = Some disabled).
    { unfold remember_and_disable. rewrite Hs. simpl. by rewrite lookup_insert_eq. }
    destruct (foldl_remember_other names n (remember_and_disable v n) Hfresh)
      as [Hsels Hprev].
    rewrite Hprev, Hstep, Hsels, Hsel. simpl. rewrite lookup_insert_eq.
    split; [done|]. split; [|done].
    destruct (_task_prev_state (foldl remember_and_disable (remember_and_disable v n) names))
      as [p|] eqn:E; [by eexists|].
    simpl in Hprev. rewrite Hstep in Hprev. simpl in Hprev.
    by rewrite lookup_empty, lookup_insert_eq in Hprev.
  - apply elem_of_cons in Hin as [?|Hin]; [done|].
    apply IH; [done | done |].
    unfold remember_and_disable. case_match; simpl; [|done].
    by rewrite lookup_insert_ne.
Qed.

Lemma selector_names_NoDup : NoDup selector_names.
Proof. by apply (bool_decide_unpack (NoDup selector_names)). Qed.

Lemma remember_and_disable_all_captures v name s :
  name ∈ selector_names → selectors v !! name = Some s →
  (∃ prev, _task_prev_state (remember_and_disable_all v) = Some prev
           ∧ prev !! name = Some (Some s))
  ∧ selectors (remember_and_disable_all v) !! name = Some disabled.
Proof.
  intros Hin Hs. unfold remember_and_disable_all.
  destruct (foldl_remember_captures selector_names name s
              (set_task_prev_state (Some ∅) v) selector_names_NoDup Hin Hs)
    as (Hprev & [prev Hsome] & Hsel).
  split; [|done]. exists prev. split; [done|]. by rewrite Hsome in Hprev.
Qed.

(** The restoring loop, one selector at a time. *)
Lemma restore_lookup (prev : gmap string (option wstate)) (sels : gmap string wstate) name :
  map_fold restore_one sels prev !! name
  = match sels !! name with
    | Some s => Some (match prev !! name with Some st => default normal st | None => s end)
    | None => None
    end.
Proof.
  revert name.
  apply (map_fold_weak_ind (λ r m, ∀ name,
    r !! name = match sels !! name with
                | Some s => Some (match m !! name with
                                  | Some st => default normal st | None => s end)
                | None => None
                end)).
  - intros name. rewrite lookup_empty. by destruct (sels !! name).
  - intros i x m r Hfresh IH name. unfold restore_one.
    destruct (decide (name = i)) as [->|Hne].
    + rewrite lookup_insert_eq. pose proof (IH i) as IHi. rewrite Hfresh in IHi.
      destruct (sels !! i); rewrite IHi; [by rewrite lookup_insert_eq | done].
    + rewrite (lookup_insert_ne m) by done.
      destruct (r !! i); [by rewrite lookup_insert_ne|]; apply IH.
Qed.

#[local] Opaque remember_and_disable_all.

(** ** The run lifecycle *)

Ltac view_cbn :=
  cbn [controller app helper_calls selected_file preview_image running task_var lang_var
       text_input image_input_frame text_input_frame selectors _task_prev_state run_btn
       output_frame widget_counter preview_box _preview_img grid
       set_controller set_app set_helper_calls set_selected_file set_preview_image
       set_running set_task_var set_lang_var set_text_input set_image_input_frame
       set_text_input_frame set_selectors set_task_prev_state set_run_btn set_output_frame
       set_widget_counter set_preview_box set_preview_img set_grid
       pack_output clear_output destroy_output app_set_status call_helper dispatch
       _border_btn_effect _update_info_panel run_started].

(** [run_task] on a view that is not running, with the guards read on the
    view before the call. *)
Lemma run_task_not_running v :
  running v = false →
  run_task v =
  let w := run_started (remember_and_disable_all v) in
  if startswith (lower (task_var v)) "image" then
    if negb (truthy_str (selected_file v) || bool_decide (is_Some (preview_image v)))
    then destroy_output (widget_counter v) (_handle_error "No image selected" w)
    else dispatch (run_image_caption
                     (if truthy_str (selected_file v) then of_file (selected_file v)
                      else of_image (preview_image v))) w
  else
    let txt := strip (text_get (text_input v)) in
    if bool_decide (txt = []) || bool_decide (txt = placeholder_text)
    then destroy_output (widget_counter v) (_handle_error "No text entered" w)
    else dispatch (run_sentiment
                     (if String.eqb (lang_var v) "Auto-detect" then txt
                      else txt ++ str " (in " ++ str (lang_var v) ++ str ")")) w.
Proof.
  intros Hrun. unfold run_task. cbv zeta.
  destruct (remember_and_disable_all_same v)
    as (_ & _ & _ & Hfile & Himage & Hrunning & Htask & Hlang & Htext & _ & _ & _
        & _ & Hcounter & _).
  revert Hfile Himage Hrunning Htask Hlang Htext Hcounter.
  generalize (remember_and_disable_all v).
  intros c Hfile Himage Hrunning Htask Hlang Htext Hcounter.
  rewrite Hrunning, Hrun.
  fold (run_started c).
  change (task_var (_border_btn_effect c)) with (task_var c).
  change (widget_counter (_update_info_panel (clear_output (_border_btn_effect c))))
    with (widget_counter c).
  change (selected_file (run_started c)) with (selected_file c).
  change (preview_image (run_started c)) with (preview_image c).
  change (text_input (run_started c)) with (text_input c).
  change (lang_var (run_started c)) with (lang_var c).
  rewrite Hfile, Himage, Htask, Hlang, Htext, Hcounter.
  by destruct (startswith (lower (task_var v)) "image").
Qed.

(** What a local rejection leaves behind. *)
Lemma reject_locally msg n w :
  output_frame w = [(n, LoadingFrame)] →
  widget_counter w = S n →
  let r := destroy_output n (_handle_error msg w) in
  running r = running w
  ∧ run_btn r = run_btn w
  ∧ output_frame r = [(S n, ErrorLabel msg)]
  ∧ controller r = controller w
  ∧ app r = record_error msg <$> app w.
Proof.
  intros Hout Hcounter.
  pose proof (handle_error_running msg w) as H1.
  pose proof (handle_error_run_btn msg w) as H2.
  pose proof (handle_error_output_frame msg w) as H3.
  pose proof (handle_error_controller msg w) as H4.
  pose proof (handle_error_app msg w) as H5.
  revert H1 H2 H3 H4 H5. generalize (_handle_error msg w). intros h H1 H2 H3 H4 H5.
  view_cbn. rewrite H3, Hout, Hcounter. repeat split; try done.
  rewrite filter_app, filter_cons_False, filter_cons_True by (simpl; lia). done.
Qed.

Lemma run_started_facts v :
  let w := run_started (remember_and_disable_all v) in
  output_frame w = [(widget_counter v, LoadingFrame)]
  ∧ widget_counter w = S (widget_counter v)
  ∧ controller w = controller v
  ∧ app w = set_status "Running…" true <$> app v
  ∧ running w = true
  ∧ _task_prev_state w = _task_prev_state (remember_and_disable_all v)
  ∧ selectors w = selectors (remember_and_disable_all v).
Proof.
  destruct (remember_and_disable_all_same v)
    as (Hcontroller & Happ & _ & _ & _ & _ & _ & _ & _ & _ & _ & _ & _ & Hcounter & _).
  revert Hcontroller Happ Hcounter. generalize (remember_and_disable_all v).
  intros c Hcontroller Happ Hcounter. view_cbn.
  by rewrite Hcontroller, Happ, Hcounter.
Qed.

Lemma run_task_while_running v :
  running v = true → run_task v = remember_and_disable_all v.
Proof.
  intros Hrun. unfold run_task. cbv zeta.
  destruct (remember_and_disable_all_same v) as (_ & _ & _ & _ & _ & Hrunning & _).
  by rewrite Hrunning, Hrun.
Qed.

(** C1 fails on the code: [run_task] assigns a fresh [_task_prev_state] and
    goes through the selectors before it tests [running].  On a view with a
    run in flight the second call dispatches nothing and leaves the output
    panel and the (already disabled) selector as they are, but it replaces
    the remembered state [readonly] of [task_menu] by [disabled]; the reset
    routine then restores the selector to [disabled], where it would have
    restored [readonly] without the second call. *)
Theorem run_task_while_running_overwrites_snapshot :
  running running_view = true
  ∧ selectors running_view !! "task_menu" = Some disabled
  ∧ _task_prev_state running_view = Some {[ "task_menu" := Some readonly ]}
  ∧ controller (run_task running_view) = controller running_view
  ∧ output_frame (run_task running_view) = output_frame running_view
  ∧ selectors (run_task running_view) = selectors running_view
  ∧ _task_prev_state (run_task running_view) = Some {[ "task_menu" := Some disabled ]}
  ∧ _task_prev_state (run_task running_view) ≠ _task_prev_state running_view
  ∧ selectors (_reset_run_state running_view) !! "task_menu" = Some readonly
  ∧ selectors (_reset_run_state (run_task running_view)) !! "task_menu" = Some disabled.
Proof.
  assert (Hsnap : _task_prev_state running_view = Some {[ "task_menu" := Some readonly ]})
    by (vm_compute; reflexivity).
  assert (Hsnap' : _task_prev_state (run_task running_view)
                   = Some {[ "task_menu" := Some disabled ]})
    by (vm_compute; reflexivity).
  rewrite Hsnap, Hsnap'.
  repeat apply conj; try (vm_compute; reflexivity).
  intros Heq.
  assert (Hlookup : ({[ "task_menu" := Some disabled ]} : gmap string (option wstate))
                      !! "task_menu"
                    = ({[ "task_menu" := Some readonly ]} : gmap string (option wstate))
                        !! "task_menu") by congruence.
  by rewrite !lookup_singleton_eq in Hlookup.
Qed.


Lemma run_task_outcome v :
  running v = false →
  controller (run_task v) = controller v
  ∨ ∃ r, run_task v = dispatch r (run_started (remember_and_disable_all v)).
Proof.
  intros Hrun. rewrite (run_task_not_running v Hrun). cbv zeta.
  destruct (run_started_facts v) as (Hout & Hcounter & Hcontroller & _).
  destruct (startswith (lower (task_var v)) "image").
  - destruct (negb _).
    + left.
      by destruct (reject_locally "No image selected" _ _ Hout Hcounter)
        as (_ & _ & _ & -> & _).
    + right. eexists. reflexivity.
  - destruct (_ || _).
    + left.
      by destruct (reject_locally "No text entered" _ _ Hout Hcounter)
        as (_ & _ & _ & -> & _).
    + right. eexists. reflexivity.
Qed.

Lemma dispatch_facts r w :
  _task_prev_state (dispatch r w) = _task_prev_state w
  ∧ selectors (dispatch r w) = selectors w
  ∧ running (dispatch r w) = running w
  ∧ controller (dispatch r w) = controller w ++ [r]
  ∧ output_frame (dispatch r w) = output_frame w.
Proof. done. Qed.

(** C3: let a run start on a view that is not running -- [run_task]
    dispatches -- and let it complete in a view that still holds the
    snapshot taken at the start.  For every task selector that existed at
    the start and still exists, the selector was disabled by [run_task], and
    the reset routine restores it to exactly the state it had before the run
    (whatever that state was), enables the run control and labels it "Run",
    clears the running flag, and reports the status "Ready" to the
    application window the view is attached to. *)
Theorem reset_restores_captured_state (v v2 : HomeView) (name : string) (s : wstate) :
  running v = false →
  name ∈ selector_names →
  selectors v !! name = Some s →
  controller (run_task v) ≠ controller v →
  _task_prev_state v2 = _task_prev_state (run_task v) →
  is_Some (selectors v2 !! name) →
  selectors (run_task v) !! name = Some disabled
  ∧ selectors (_reset_run_state v2) !! name = Some s
  ∧ run_btn (_reset_run_state v2) = {| btn_state := normal; btn_text := "Run" |}
  ∧ running (_reset_run_state v2) = false
  ∧ app (_reset_run_state v2) = set_status "Ready" false <$> app v2.
Proof.
  intros Hrun Hin Hs Hdispatched Hsnap [s2 Hs2].
  destruct (run_task_outcome v Hrun) as [Hrejected|[r Hr]]; [done|].
  destruct (remember_and_disable_all_captures v name s Hin Hs)
    as [(prev & Hprev & Hname) Hdisabled].
  destruct (run_started_facts v) as (_ & _ & _ & _ & _ & Hprev' & Hsels').
  destruct (dispatch_facts r (run_started (remember_and_disable_all v)))
    as (Hd1 & Hd2 & _).
  rewrite Hr, Hd1, Hprev', Hprev in Hsnap.
  rewrite Hr, Hd2, Hsels', Hdisabled.
  rewrite reset_run_btn, reset_running, reset_app.
  repeat split; try done.
  rewrite (reset_selectors v2 prev Hsnap).
  - by rewrite restore_lookup, Hs2, Hname.
  - intros ->. by rewrite lookup_empty in Hname.
Qed.

Lemma reset_restores_captured_state_witness :
  running (set_selected_file (Some "photo.png") (HomeView_init (Some MainApp_init))) = false
  ∧ selectors (set_selected_file (Some "photo.png") (HomeView_init (Some MainApp_init)))
      !! "task_menu" = Some readonly
  ∧ selectors running_view !! "task_menu" = Some disabled
  ∧ selectors (_reset_run_state running_view) !! "task_menu" = Some readonly
  ∧ run_btn (_reset_run_state running_view) = {| btn_state := normal; btn_text := "Run" |}
  ∧ running (_reset_run_state running_view) = false
  ∧ app (_reset_run_state running_view) = set_status "Ready" false <$> app running_view.
Proof.
  unfold running_view.
  split; [vm_compute; reflexivity|]. split; [vm_compute; reflexivity|].
  apply (reset_restores_captured_state
           (set_selected_file (Some "photo.png") (HomeView_init (Some MainApp_init)))
           running_view "task_menu" readonly).
  - vm_compute. reflexivity.
  - unfold selector_names. set_solver.
  - vm_compute. reflexivity.
  - vm_compute. discriminate.
  - reflexivity.
  - vm_compute. eauto.
Defined.

(** An image-task run with no file selected and a decoded image present
    dispatches that image. *)
Lemma run_task_dispatches_preview v img :
  running v = false →
  startswith (lower (task_var v)) "image" = true →
  selected_file v = None →
  preview_image v = Some img →
  controller (run_task v) = controller v ++ [run_image_caption (PyImage img)]
  ∧ running (run_task v) = true
  ∧ output_frame (run_task v) = [(widget_counter v, LoadingFrame)].
Proof.
  intros Hrun Htask Hfile Himage.
  rewrite (run_task_not_running v Hrun). cbv zeta.
  rewrite Htask, Hfile, Himage.
  change (negb (truthy_str None || bool_decide (is_Some (Some img)))) with false.
  cbv iota. change (truthy_str None) with false. cbv iota.
  destruct (run_started_facts v) as (Hout & _ & Hcontroller & _ & Hrunning & _).
  destruct (dispatch_facts (run_image_caption (of_image (Some img)))
              (run_started (remember_and_disable_all v))) as (_ & _ & -> & -> & ->).
  by rewrite Hout, Hcontroller, Hrunning.
Qed.

Lemma use_sample_image_fallback env v :
  os_path_exists env (sample_path env) = false ∨ Image_open env (sample_path env) = None →
  use_sample_image env v
  = _set_preview env placeholder_image
      (set_selected_file None (set_preview_image (Some placeholder_image) v)).
Proof.
  unfold use_sample_image. intros [Hmissing|Hopen].
  - by rewrite Hmissing.
  - rewrite Hopen. by destruct (os_path_exists env (sample_path env)).
Qed.

(** C10: whenever the bundled sample image does not exist or [Image.open]
    fails on it, [use_sample_image] returns with [selected_file] set to
    [None] and the preview image set to a new 320 by 240 RGB image; a
    following [run_task] for the image task, on a view that is not running,
    dispatches that image to the controller, enters the running state, and
    shows the loading indicator and no error. *)
Theorem sample_fallback_then_run (env : Env) (v : HomeView) :
  os_path_exists env (sample_path env) = false ∨ Image_open env (sample_path env) = None →
  running v = false →
  startswith (lower (task_var v)) "image" = true →
  ∃ v',
    use_sample_image env v = Some v'
    ∧ selected_file v' = None
    ∧ preview_image v' = Some (ImageNew "RGB" (320, 240)%Z (220, 230, 240)%Z)
    ∧ controller (run_task v')
      = controller v
        ++ [run_image_caption (PyImage (ImageNew "RGB" (320, 240)%Z (220, 230, 240)%Z))]
    ∧ running (run_task v') = true
    ∧ (∀ c, c ∈ output_frame (run_task v') → c.2 = LoadingFrame).
Proof.
  intros Hsample Hrun Htask.
  rewrite (use_sample_image_fallback env v Hsample).
  eexists. split; [reflexivity|]. split; [reflexivity|]. split; [reflexivity|].
  match goal with
  | |- context [run_task ?u] =>
      destruct (run_task_dispatches_preview u placeholder_image Hrun Htask eq_refl eq_refl)
        as (-> & -> & ->)
  end.
  repeat split; try done. by intros c ->%list_elem_of_singleton.
Qed.

Lemma sample_fallback_then_run_witness :
  os_path_exists demo_env (sample_path demo_env) = false
  ∧ ∃ v',
      use_sample_image demo_env (HomeView_init None) = Some v'
      ∧ selected_file v' = None
      ∧ preview_image v' = Some (ImageNew "RGB" (320, 240)%Z (220, 230, 240)%Z)
      ∧ controller (run_task v')
        = controller (HomeView_init None)
          ++ [run_image_caption (PyImage (ImageNew "RGB" (320, 240)%Z (220, 230, 240)%Z))]
      ∧ running (run_task v') = true
      ∧ (∀ c, c ∈ output_frame (run_task v') → c.2 = LoadingFrame).
Proof.
  split; [vm_compute; reflexivity|].
  apply (sample_fallback_then_run demo_env (HomeView_init None));
    [left; vm_compute; reflexivity | vm_compute; reflexivity | vm_compute; reflexivity].
Defined.

(** * Further properties *)

(** ** Stripping *)

Lemma lstrip_length s : length (lstrip s) ≤ length s.
Proof. induction s as [|c s IH]; simpl; [done|]. destruct (isspace c); simpl; lia. Qed.

Lemma lstrip_app_space s c : isspace c = true →
  lstrip (s ++ [c]) = match lstrip s with [] => [] | _ => lstrip s ++ [c] end.
Proof.
  intros Hc. induction s as [|d s IH]; simpl.
  - by rewrite Hc.
  - destruct (isspace d); [done | reflexivity].
Qed.

Lemma rstrip_app_space s c : isspace c = true → rstrip (s ++ [c]) = rstrip s.
Proof. intros Hc. unfold rstrip. rewrite rev_app_distr. simpl. by rewrite Hc. Qed.

Lemma rstrip_length s : length (rstrip s) ≤ length s.
Proof.
  unfold rstrip. rewrite length_rev. etrans; [apply lstrip_length|]. by rewrite length_rev.
Qed.

Lemma strip_length s : length (strip s) ≤ length s.
Proof. unfold strip. etrans; [apply rstrip_length | apply lstrip_length]. Qed.

(** The newline Tk appends is stripped with the rest. *)
Lemma strip_text_get t : strip (text_get t) = strip (content t).
Proof.
  unfold strip, text_get. rewrite lstrip_app_space by done.
  destruct (lstrip (content t)) as [|c r] eqn:E; [done|].
  by rewrite rstrip_app_space.
Qed.

Lemma lstrip_nil_iff s : lstrip s = [] ↔ forallb isspace s = true.
Proof.
  induction s as [|c s IH]; simpl; [done|].
  destruct (isspace c); simpl; [done|]. split; discriminate.
Qed.

Lemma rstrip_nil_iff s : rstrip s = [] ↔ forallb isspace s = true.
Proof.
  unfold rstrip. split.
  - intros H. apply (f_equal (@rev N)) in H. rewrite rev_involutive in H. simpl in H.
    apply lstrip_nil_iff in H. rewrite forallb_forall in *. intros x Hx.
    apply H. by apply in_rev in Hx.
  - intros H. assert (Hr : lstrip (rev s) = []).
    { apply lstrip_nil_iff. rewrite forallb_forall in *. intros x Hx.
      apply H. by apply in_rev. }
    by rewrite Hr.
Qed.

Lemma lstrip_suffix s : ∃ p, s = p ++ lstrip s ∧ forallb isspace p = true.
Proof.
  induction s as [|c s (p & Hp & Hsp)]; simpl; [by exists []|].
  destruct (isspace c) eqn:E.
  - exists (c :: p). simpl. rewrite E, Hsp. split; [by f_equal | done].
  - by exists [].
Qed.

Lemma strip_nil_iff s : strip s = [] ↔ forallb isspace s = true.
Proof.
  unfold strip. rewrite rstrip_nil_iff.
  destruct (lstrip_suffix s) as (p & Hp & Hsp).
  split; intros H.
  - rewrite Hp, forallb_app, Hsp, H. done.
  - rewrite Hp, forallb_app in H. by apply andb_true_iff in H as [_ H].
Qed.

(** ** The character limit *)

Lemma _enforce_char_limit_text v :
  content (text_input (_enforce_char_limit v))
  = if (3000 <? length (strip (content (text_input v))))
    then firstn 3000 (strip (content (text_input v)))
    else content (text_input v).
Proof.
  unfold _enforce_char_limit. rewrite strip_text_get.
  by destruct (3000 <? length (strip (content (text_input v)))).
Qed.

Lemma _enforce_char_limit_bound v :
  length (strip (text_get (text_input (_enforce_char_limit v)))) ≤ 3000.
Proof.
  rewrite strip_text_get, _enforce_char_limit_text.
  destruct (Nat.ltb_spec 3000 (length (strip (content (text_input v))))) as [Hlt|Hle].
  - etrans; [apply strip_length|]. rewrite length_take. lia.
  - done.
Qed.

(** X1: after the key-release handler, the text the view reads from the
    field (the content stripped of surrounding whitespace) never has more
    than 3000 characters, whatever the field held before. *)
Theorem enforce_char_limit_caps_effective_text (v : HomeView) :
  length (strip (text_get (text_input (_enforce_char_limit v)))) ≤ 3000.
Proof. apply _enforce_char_limit_bound. Qed.

(** X2: the key-release handler is idempotent: a second call right after
    the first changes nothing. *)
Theorem enforce_char_limit_idempotent (v : HomeView) :
  _enforce_char_limit (_enforce_char_limit v) = _enforce_char_limit v.
Proof. apply _enforce_char_limit_within, _enforce_char_limit_bound. Qed.

(** X3: pasting a non-empty clipboard text replaces the content by the
    first 3000 characters of the clipboard (unstripped) in black; the
    effective text is then within the limit, so the key-release handler has
    nothing left to truncate.  The previous content plays no role. *)
Theorem paste_clipboard_within_limit (clipboard : pystr) (v : HomeView) :
  clipboard ≠ [] →
  content (text_input (paste_clipboard (Some clipboard) v)) = firstn 3000 clipboard
  ∧ fg (text_input (paste_clipboard (Some clipboard) v)) = "#000"
  ∧ length (strip (text_get (text_input (paste_clipboard (Some clipboard) v)))) ≤ 3000
  ∧ _enforce_char_limit (paste_clipboard (Some clipboard) v)
    = paste_clipboard (Some clipboard) v.
Proof.
  intros Hne. destruct clipboard as [|c r]; [done|].
  assert (Hbound : length (strip (text_get (text_input
                     (paste_clipboard (Some (c :: r)) v)))) ≤ 3000).
  { rewrite strip_text_get. etrans; [apply strip_length|].
    cbn [paste_clipboard content text_input set_text_input text_configure_fg text_replace].
    rewrite length_take. lia. }
  split; [done|]. split; [done|]. split; [done|].
  by apply _enforce_char_limit_within.
Qed.

Lemma paste_clipboard_within_limit_witness :
  str "hello" ≠ []
  ∧ content (text_input (paste_clipboard (Some (str "hello")) (HomeView_init None)))
    = firstn 3000 (str "hello").
Proof.
  assert (Hne : str "hello" ≠ []) by (vm_compute; discriminate).
  split; [exact Hne|].
  exact (proj1 (paste_clipboard_within_limit (str "hello") (HomeView_init None) Hne)).
Defined.

(** ** The placeholder *)

Lemma strip_placeholder : strip (placeholder_text ++ [10%N]) = placeholder_text.
Proof. vm_compute. reflexivity. Qed.

Lemma placeholder_not_blank : forallb isspace placeholder_text = false.
Proof. vm_compute. reflexivity. Qed.

(** X4: focus round trip on an untouched field.  With the placeholder
    shown, focusing the field empties it and switches to black; leaving it
    again without typing brings the grey placeholder back, so the field is as
    before. *)
Theorem placeholder_focus_roundtrip (v : HomeView) :
  content (text_input (_clear_placeholder (_set_placeholder v))) = []
  ∧ fg (text_input (_clear_placeholder (_set_placeholder v))) = "#000"
  ∧ _restore_placeholder (_clear_placeholder (_set_placeholder v)) = _set_placeholder v.
Proof.
  assert (Hclear : _clear_placeholder (_set_placeholder v)
            = set_text_input (text_configure_fg "#000"
                (text_replace [] (text_input (_set_placeholder v)))) (_set_placeholder v)).
  { unfold _clear_placeholder.
    assert (Hp : strip (text_get (text_input (_set_placeholder v))) = placeholder_text)
      by apply strip_placeholder.
    by destruct (decide _). }
  rewrite Hclear. split; [done|]. split; [done|]. reflexivity.
Qed.

(** X5: what leaving the field does.  Content made of whitespace only (the
    empty content included) is replaced by the grey placeholder; any content
    with a non-whitespace character is left exactly as it is. *)
Theorem restore_placeholder_iff_blank (v : HomeView) :
  _restore_placeholder v
  = if forallb isspace (content (text_input v)) then _set_placeholder v else v.
Proof.
  unfold _restore_placeholder. rewrite strip_text_get.
  destruct (forallb isspace (content (text_input v))) eqn:E.
  - apply strip_nil_iff in E. by rewrite E.
  - destruct (strip (content (text_input v))) eqn:Es; [|done].
    apply strip_nil_iff in Es. congruence.
Qed.

(** ** More on the reset routine and the error path *)

#[local] Transparent _handle_error _reset_run_state remember_and_disable_all.

Lemma reset_frame v :
  controller (_reset_run_state v) = controller v
  ∧ helper_calls (_reset_run_state v) = helper_calls v
  ∧ selected_file (_reset_run_state v) = selected_file v
  ∧ preview_image (_reset_run_state v) = preview_image v
  ∧ task_var (_reset_run_state v) = task_var v
  ∧ lang_var (_reset_run_state v) = lang_var v
  ∧ text_input (_reset_run_state v) = text_input v
  ∧ image_input_frame (_reset_run_state v) = image_input_frame v
  ∧ text_input_frame (_reset_run_state v) = text_input_frame v
  ∧ output_frame (_reset_run_state v) = output_frame v
  ∧ widget_counter (_reset_run_state v) = widget_counter v
  ∧ preview_box (_reset_run_state v) = preview_box v
  ∧ _preview_img (_reset_run_state v) = _preview_img v
  ∧ grid (_reset_run_state v) = grid v.
Proof. unfold _reset_run_state; simpl; repeat case_match; by repeat split. Qed.

Lemma reset_no_snapshot v :
  _task_prev_state v = None ∨ _task_prev_state v = Some ∅ →
  selectors (_reset_run_state v) = selectors v
  ∧ _task_prev_state (_reset_run_state v) = _task_prev_state v.
Proof.
  intros [H|H]; unfold _reset_run_state; simpl; rewrite H; [done|].
  by destruct (decide (∅ = ∅)).
Qed.

Lemma reset_snapshot_cleared v prev :
  _task_prev_state v = Some prev → _task_prev_state (_reset_run_state v) = Some ∅.
Proof.
  intros H. unfold _reset_run_state. simpl. rewrite H.
  destruct (decide (prev = ∅)) as [->|]; [done | done].
Qed.

Lemma handle_error_frame msg v :
  task_var (_handle_error msg v) = task_var v
  ∧ lang_var (_handle_error msg v) = lang_var v
  ∧ text_input (_handle_error msg v) = text_input v
  ∧ helper_calls (_handle_error msg v) = helper_calls v
  ∧ widget_counter (_handle_error msg v) = S (widget_counter v).
Proof. unfold _handle_error; simpl; by repeat split. Qed.

#[local] Opaque _handle_error _reset_run_state remember_and_disable_all.

(** ** The run lifecycle, continued *)

Lemma run_started_inputs v :
  run_btn (run_started (remember_and_disable_all v))
  = {| btn_state := disabled; btn_text := "Running…" |}
  ∧ selected_file (run_started (remember_and_disable_all v)) = selected_file v
  ∧ preview_image (run_started (remember_and_disable_all v)) = preview_image v
  ∧ text_input (run_started (remember_and_disable_all v)) = text_input v
  ∧ task_var (run_started (remember_and_disable_all v)) = task_var v
  ∧ lang_var (run_started (remember_and_disable_all v)) = lang_var v.
Proof.
  destruct (remember_and_disable_all_same v)
    as (_ & _ & _ & Hfile & Himage & _ & Htask & Hlang & Htext & _).
  revert Hfile Himage Htask Hlang Htext. generalize (remember_and_disable_all v).
  intros c Hfile Himage Htask Hlang Htext. view_cbn.
  by rewrite Hfile, Himage, Htask, Hlang, Htext.
Qed.

Lemma dispatch_inputs r w :
  run_btn (dispatch r w) = run_btn w
  ∧ selected_file (dispatch r w) = selected_file w
  ∧ preview_image (dispatch r w) = preview_image w
  ∧ text_input (dispatch r w) = text_input w
  ∧ app (dispatch r w) = app w.
Proof. done. Qed.

(** What holds of the view right after a dispatch. *)
Lemma dispatched_view r v :
  run_task v = dispatch r (run_started (remember_and_disable_all v)) →
  controller (run_task v) = controller v ++ [r]
  ∧ running (run_task v) = true
  ∧ run_btn (run_task v) = {| btn_state := disabled; btn_text := "Running…" |}
  ∧ output_frame (run_task v) = [(widget_counter v, LoadingFrame)]
  ∧ app (run_task v) = set_status "Running…" true <$> app v
  ∧ selected_file (run_task v) = selected_file v
  ∧ preview_image (run_task v) = preview_image v
  ∧ text_input (run_task v) = text_input v
  ∧ selectors (run_task v) = selectors (remember_and_disable_all v)
  ∧ _task_prev_state (run_task v) = _task_prev_state (remember_and_disable_all v).
Proof.
  intros ->.
  destruct (run_started_facts v) as (Hout & _ & Hcontroller & Happ & Hrunning & Hprev & Hsels).
  destruct (run_started_inputs v) as (Hbtn & Hfile & Himage & Htext & _).
  destruct (dispatch_facts r (run_started (remember_and_disable_all v)))
    as (-> & -> & -> & -> & ->).
  destruct (dispatch_inputs r (run_started (remember_and_disable_all v)))
    as (-> & -> & -> & -> & ->).
  by rewrite Hout, Hcontroller, Happ, Hrunning, Hprev, Hsels, Hbtn, Hfile, Himage, Htext.
Qed.

(** X6: the postcondition of every dispatch.  Whenever [run_task], called on
    a view that is not running, reaches the controller, it sends exactly one
    request and leaves the view in the running state: flag set, run control
    disabled and labelled "Running…", status "Running…", the output panel
    holding the loading indicator and nothing else, every existing task
    selector disabled, and the inputs (file, preview image, text widget)
    untouched. *)
Theorem run_task_dispatch_postcondition (v : HomeView) :
  running v = false →
  controller (run_task v) ≠ controller v →
  (∃ r, controller (run_task v) = controller v ++ [r])
  ∧ running (run_task v) = true
  ∧ run_btn (run_task v) = {| btn_state := disabled; btn_text := "Running…" |}
  ∧ output_frame (run_task v) = [(widget_counter v, LoadingFrame)]
  ∧ app (run_task v) = set_status "Running…" true <$> app v
  ∧ selected_file (run_task v) = selected_file v
  ∧ preview_image (run_task v) = preview_image v
  ∧ text_input (run_task v) = text_input v
  ∧ ∀ name, name ∈ selector_names → is_Some (selectors v !! name) →
            selectors (run_task v) !! name = Some disabled.
Proof.
  intros Hrun Hdispatched.
  destruct (run_task_outcome v Hrun) as [Hrejected|[r Hr]]; [done|].
  destruct (dispatched_view r v Hr)
    as (H1 & H2 & H3 & H4 & H5 & H6 & H7 & H8 & H9 & _).
  split; [by exists r|]. do 7 (split; [done|]).
  intros name Hin [s Hs]. rewrite H9.
  by destruct (remember_and_disable_all_captures v name s Hin Hs) as [_ ?].
Qed.

Lemma run_task_dispatch_postcondition_witness :
  (running (set_selected_file (Some "photo.png") (HomeView_init (Some MainApp_init))) = false
   ∧ controller running_view
     ≠ controller (set_selected_file (Some "photo.png") (HomeView_init (Some MainApp_init))))
  ∧ ∃ r, controller running_view
         = controller (set_selected_file (Some "photo.png")
                         (HomeView_init (Some MainApp_init))) ++ [r].
Proof.
  assert (H1 : running (set_selected_file (Some "photo.png")
                          (HomeView_init (Some MainApp_init))) = false)
    by (vm_compute; reflexivity).
  assert (H2 : controller running_view
               ≠ controller (set_selected_file (Some "photo.png")
                               (HomeView_init (Some MainApp_init))))
    by (vm_compute; discriminate).
  split; [by split|].
  exact (proj1 (run_task_dispatch_postcondition _ H1 H2)).
Defined.

(** X7: the guard.  On a view whose running flag is set, [run_task] sends
    nothing to the controller and leaves the output panel, the run control,
    the status, the inputs and the flag as they are. *)
Theorem run_task_guard_no_dispatch (v : HomeView) :
  running v = true →
  controller (run_task v) = controller v
  ∧ output_frame (run_task v) = output_frame v
  ∧ run_btn (run_task v) = run_btn v
  ∧ app (run_task v) = app v
  ∧ running (run_task v) = true
  ∧ selected_file (run_task v) = selected_file v
  ∧ preview_image (run_task v) = preview_image v
  ∧ text_input (run_task v) = text_input v
  ∧ helper_calls (run_task v) = helper_calls v.
Proof.
  intros Hrun. rewrite (run_task_while_running v Hrun).
  destruct (remember_and_disable_all_same v)
    as (H1 & H2 & H3 & H4 & H5 & H6 & _ & _ & H9 & _ & _ & H12 & H13 & _).
  by rewrite H1, H2, H3, H4, H5, H6, H9, H12, H13.
Qed.

Lemma run_task_guard_no_dispatch_witness :
  running running_view = true
  ∧ controller (run_task running_view) = controller running_view.
Proof.
  assert (H : running running_view = true) by (vm_compute; reflexivity).
  split; [exact H|].
  exact (proj1 (run_task_guard_no_dispatch running_view H)).
Defined.

(** X8: the sentiment task sends the stripped text.  With text that is
    neither blank nor the placeholder, [run_task] dispatches
    [run_sentiment] with the stripped content, followed by [" (in <lang>)"]
    exactly when the language selector is not on "Auto-detect". *)
Theorem run_task_sentiment_dispatch (v : HomeView) :
  running v = false →
  startswith (lower (task_var v)) "image" = false →
  strip (content (text_input v)) ≠ [] →
  strip (content (text_input v)) ≠ placeholder_text →
  controller (run_task v)
  = controller v
    ++ [run_sentiment
          (if String.eqb (lang_var v) "Auto-detect" then strip (content (text_input v))
           else strip (content (text_input v))
                  ++ str " (in " ++ str (lang_var v) ++ str ")")]
  ∧ running (run_task v) = true.
Proof.
  intros Hrun Htask Hblank Hplaceholder.
  assert (Hr : run_task v
    = dispatch (run_sentiment
          (if String.eqb (lang_var v) "Auto-detect" then strip (content (text_input v))
           else strip (content (text_input v))
                  ++ str " (in " ++ str (lang_var v) ++ str ")"))
        (run_started (remember_and_disable_all v))).
  { rewrite (run_task_not_running v Hrun). cbv zeta. rewrite Htask, strip_text_get.
    rewrite (bool_decide_eq_false_2 _ Hblank), (bool_decide_eq_false_2 _ Hplaceholder).
    reflexivity. }
  by destruct (dispatched_view _ v Hr) as (? & ? & _).
Qed.

Lemma run_task_sentiment_dispatch_witness :
  (running sentiment_view = false
   ∧ startswith (lower (task_var sentiment_view)) "image" = false)
  ∧ controller (run_task sentiment_view)
    = [run_sentiment (str "me gusta (in Spanish)")].
Proof.
  assert (H1 : running sentiment_view = false) by (vm_compute; reflexivity).
  assert (H2 : startswith (lower (task_var sentiment_view)) "image" = false)
    by (vm_compute; reflexivity).
  assert (H3 : strip (content (text_input sentiment_view)) ≠ [])
    by (vm_compute; discriminate).
  assert (H4 : strip (content (text_input sentiment_view)) ≠ placeholder_text)
    by (vm_compute; discriminate).
  split; [by split|].
  etrans; [exact (proj1 (run_task_sentiment_dispatch sentiment_view H1 H2 H3 H4))|].
  vm_compute. reflexivity.
Defined.

(** X9: blank text and the placeholder never reach the controller.  On the
    sentiment task, when the content is whitespace only or reads as the
    placeholder, [run_task] takes the error path with "No text entered" and
    destroys the loading frame it had just packed. *)
Theorem run_task_rejects_blank_text (v : HomeView) :
  running v = false →
  startswith (lower (task_var v)) "image" = false →
  forallb isspace (content (text_input v)) = true
  ∨ strip (content (text_input v)) = placeholder_text →
  run_task v
  = destroy_output (widget_counter v)
      (_handle_error "No text entered" (run_started (remember_and_disable_all v)))
  ∧ controller (run_task v) = controller v.
Proof.
  intros Hrun Htask Hblank.
  assert (Hr : run_task v
    = destroy_output (widget_counter v)
        (_handle_error "No text entered" (run_started (remember_and_disable_all v)))).
  { rewrite (run_task_not_running v Hrun). cbv zeta. rewrite Htask, strip_text_get.
    destruct Hblank as [Hb|Hp].
    - apply strip_nil_iff in Hb. by rewrite Hb.
    - rewrite Hp. rewrite (bool_decide_eq_true_2 (placeholder_text = placeholder_text)) by done.
      by rewrite orb_true_r. }
  split; [done|]. rewrite Hr.
  destruct (run_started_facts v) as (Hout & Hcounter & Hcontroller & _).
  by destruct (reject_locally "No text entered" _ _ Hout Hcounter) as (_ & _ & _ & -> & _).
Qed.

Lemma run_task_rejects_blank_text_witness :
  (running (on_task_selected "Sentiment Analysis" (HomeView_init None)) = false
   ∧ strip (content (text_input (on_task_selected "Sentiment Analysis" (HomeView_init None))))
     = placeholder_text)
  ∧ controller (run_task (on_task_selected "Sentiment Analysis" (HomeView_init None)))
    = controller (on_task_selected "Sentiment Analysis" (HomeView_init None)).
Proof.
  assert (H1 : running (on_task_selected "Sentiment Analysis" (HomeView_init None)) = false)
    by (vm_compute; reflexivity).
  assert (H2 : startswith (lower (task_var
                 (on_task_selected "Sentiment Analysis" (HomeView_init None)))) "image" = false)
    by (vm_compute; reflexivity).
  assert (H3 : strip (content (text_input
                 (on_task_selected "Sentiment Analysis" (HomeView_init None))))
               = placeholder_text)
    by (vm_compute; reflexivity).
  split; [by split|].
  exact (proj2 (run_task_rejects_blank_text _ H1 H2 (or_intror H3))).
Defined.

(** X10: the file path wins.  On the image task, when a non-empty file path
    is selected, [run_task] sends the path to the controller, whether or not
    a decoded preview image is present and whatever it is. *)
Theorem run_task_prefers_file_path (v : HomeView) (f : string) :
  running v = false →
  startswith (lower (task_var v)) "image" = true →
  selected_file v = Some f →
  f ≠ "" →
  controller (run_task v) = controller v ++ [run_image_caption (PyStr f)]
  ∧ running (run_task v) = true.
Proof.
  intros Hrun Htask Hfile Hne.
  assert (Htruthy : truthy_str (Some f) = true).
  { simpl. by destruct (String.eqb_spec f ""). }
  assert (Hr : run_task v
    = dispatch (run_image_caption (PyStr f)) (run_started (remember_and_disable_all v))).
  { rewrite (run_task_not_running v Hrun). cbv zeta.
    by rewrite Htask, Hfile, Htruthy. }
  by destruct (dispatched_view _ v Hr) as (? & ? & _).
Qed.

Lemma run_task_prefers_file_path_witness :
  (running (set_preview_image (Some (ImageFile "old.png"))
             (set_selected_file (Some "photo.png") (HomeView_init None))) = false
   ∧ "photo.png" ≠ "")
  ∧ controller (run_task (set_preview_image (Some (ImageFile "old.png"))
                            (set_selected_file (Some "photo.png") (HomeView_init None))))
    = controller (set_preview_image (Some (ImageFile "old.png"))
                    (set_selected_file (Some "photo.png") (HomeView_init None)))
      ++ [run_image_caption (PyStr "photo.png")].
Proof.
  assert (H1 : running (set_preview_image (Some (ImageFile "old.png"))
                 (set_selected_file (Some "photo.png") (HomeView_init None))) = false)
    by (vm_compute; reflexivity).
  assert (H2 : startswith (lower (task_var (set_preview_image (Some (ImageFile "old.png"))
                 (set_selected_file (Some "photo.png") (HomeView_init None))))) "image" = true)
    by (vm_compute; reflexivity).
  assert (H3 : "photo.png" ≠ "") by discriminate.
  split; [by split|].
  exact (proj1 (run_task_prefers_file_path _ "photo.png" H1 H2 eq_refl H3)).
Defined.

#[local] Transparent _handle_error _reset_run_state remember_and_disable_all.

(** ** The selector table across a run *)

(** The loop that opens [run_task], selector by selector. *)
Lemma foldl_remember_spec names : ∀ v p0,
  NoDup names → _task_prev_state v = Some p0 →
  ∃ prev,
    _task_prev_state (foldl remember_and_disable v names) = Some prev
    ∧ ∀ name,
        prev !! name
        = (if decide (name ∈ names)
           then match selectors v !! name with
                | Some s => Some (Some s)
                | None => p0 !! name
                end
           else p0 !! name)
        ∧ selectors (foldl remember_and_disable v names) !! name
          = (if decide (name ∈ names) then (λ _, disabled) <$> selectors v !! name
             else selectors v !! name).
Proof.
  induction names as [|n names IH]; intros v p0 Hnd Hp0.
  { exists p0. split; [done|]. intros name.
    destruct (decide (name ∈ [])) as [Hin|_]; [by apply elem_of_nil in Hin | done]. }
  apply NoDup_cons in Hnd as [Hfresh Hnd].
  cbn [foldl].
  destruct (selectors v !! n) as [s|] eqn:Hs.
  - assert (Hstep : remember_and_disable v n
              = set_selectors (<[n := disabled]> (selectors v))
                  (set_task_prev_state (Some (<[n := Some s]> p0)) v)).
    { unfold remember_and_disable. by rewrite Hs, Hp0. }
    destruct (IH (remember_and_disable v n) (<[n := Some s]> p0) Hnd) as (prev & Hprev & Hall).
    { by rewrite Hstep. }
    exists prev. split; [done|]. intros name. destruct (Hall name) as [H1 H2].
    rewrite H1, H2, Hstep.
    cbn [selectors set_selectors set_task_prev_state].
    destruct (decide (name = n)) as [->|Hne].
    + destruct (decide (n ∈ names)); [done|].
      destruct (decide (n ∈ n :: names)); [|set_solver].
      by rewrite !lookup_insert_eq, Hs.
    + rewrite !lookup_insert_ne by done.
      destruct (decide (name ∈ names)), (decide (name ∈ n :: names)); set_solver.
  - assert (Hstep : remember_and_disable v n = v).
    { unfold remember_and_disable. by rewrite Hs. }
    rewrite Hstep. destruct (IH v p0 Hnd Hp0) as (prev & Hprev & Hall).
    exists prev. split; [done|]. intros name. destruct (Hall name) as [H1 H2].
    rewrite H1, H2.
    destruct (decide (name = n)) as [->|Hne].
    + destruct (decide (n ∈ names)); [done|].
      destruct (decide (n ∈ n :: names)); [|set_solver].
      by rewrite Hs.
    + destruct (decide (name ∈ names)), (decide (name ∈ n :: names)); set_solver.
Qed.

Lemma remember_and_disable_all_spec v :
  ∃ prev,
    _task_prev_state (remember_and_disable_all v) = Some prev
    ∧ ∀ name,
        prev !! name
        = (if decide (name ∈ selector_names) then Some <$> selectors v !! name else None)
        ∧ selectors (remember_and_disable_all v) !! name
          = (if decide (name ∈ selector_names) then (λ _, disabled) <$> selectors v !! name
             else selectors v !! name).
Proof.
  unfold remember_and_disable_all.
  destruct (foldl_remember_spec selector_names (set_task_prev_state (Some ∅) v) ∅
              selector_names_NoDup eq_refl) as (prev & Hprev & Hall).
  exists prev. split; [done|]. intros name. destruct (Hall name) as [H1 H2].
  rewrite H1, H2. simpl. rewrite lookup_empty.
  split; [|done]. destruct (decide _); [|done]. by destruct (selectors v !! name).
Qed.

Lemma reset_selectors_lookup v prev name :
  _task_prev_state v = Some prev →
  selectors (_reset_run_state v) !! name
  = match selectors v !! name with
    | Some s => Some (match prev !! name with Some st => default normal st | None => s end)
    | None => None
    end.
Proof.
  intros Hprev. destruct (decide (prev = ∅)) as [->|Hne].
  - destruct (reset_no_snapshot v (or_intror Hprev)) as [-> _].
    rewrite lookup_empty. by destruct (selectors v !! name).
  - rewrite (reset_selectors v prev Hprev Hne). apply restore_lookup.
Qed.

#[local] Opaque _handle_error _reset_run_state remember_and_disable_all.

(** X11: the selector table round trip.  When a run dispatched from a view
    that is not running completes, the reset routine leaves the whole table
    of selector states exactly as it was before [run_task]: the remembered
    selectors get their states back, and no other entry is touched. *)
Theorem completed_run_restores_selector_table (v : HomeView) :
  running v = false →
  controller (run_task v) ≠ controller v →
  selectors (_reset_run_state (run_task v)) = selectors v
  ∧ _task_prev_state (_reset_run_state (run_task v)) = Some ∅.
Proof.
  intros Hrun Hdispatched.
  destruct (run_task_outcome v Hrun) as [Hrejected|[r Hr]]; [done|].
  destruct (dispatched_view r v Hr) as (_ & _ & _ & _ & _ & _ & _ & _ & Hsels & Hprev).
  destruct (remember_and_disable_all_spec v) as (prev & Hsnap & Hall).
  rewrite Hsnap in Hprev. split; [|by apply (reset_snapshot_cleared _ prev)].
  apply map_eq. intros name.
  rewrite (reset_selectors_lookup _ prev name Hprev), Hsels.
  destruct (Hall name) as [-> ->].
  destruct (decide (name ∈ selector_names)); by destruct (selectors v !! name).
Qed.

Lemma completed_run_restores_selector_table_witness :
  (running (set_selected_file (Some "photo.png") (HomeView_init (Some MainApp_init))) = false
   ∧ controller running_view
     ≠ controller (set_selected_file (Some "photo.png") (HomeView_init (Some MainApp_init))))
  ∧ selectors (_reset_run_state running_view)
    = selectors (set_selected_file (Some "photo.png") (HomeView_init (Some MainApp_init))).
Proof.
  assert (H1 : running (set_selected_file (Some "photo.png")
                          (HomeView_init (Some MainApp_init))) = false)
    by (vm_compute; reflexivity).
  assert (H2 : controller running_view
               ≠ controller (set_selected_file (Some "photo.png")
                               (HomeView_init (Some MainApp_init))))
    by (vm_compute; discriminate).
  split; [by split|].
  exact (proj1 (completed_run_restores_selector_table _ H1 H2)).
Defined.

#[local] Transparent _handle_error _reset_run_state remember_and_disable_all.

(** X12: the reset routine is idempotent: once it has run, running it again
    changes nothing -- the snapshot it consumed is empty, so no selector is
    touched a second time. *)
Theorem reset_run_state_idempotent (v : HomeView) :
  _reset_run_state (_reset_run_state v) = _reset_run_state v.
Proof.
  destruct v as [ctl a hc sf pi run tv lv ti iif tif sels prev rb out wc pb pim g].
  unfold _reset_run_state, app_set_status. simpl.
  destruct prev as [prev|]; simpl.
  - destruct (decide (prev = ∅)) as [->|Hne]; simpl.
    + destruct (decide (∅ = ∅)); [|done]. by destruct a.
    + destruct (decide (∅ = ∅)); [|done]. by destruct a.
  - by destruct a.
Qed.

#[local] Opaque _handle_error _reset_run_state remember_and_disable_all.

(** ** Image validation, continued *)

Lemma _validate_image_too_large env path size v :
  has_allowed_extension path = true →
  os_path_getsize env path = Some size →
  (max_image_size < size)%Z →
  _validate_image env path v = Some (false, _handle_error too_large_msg v).
Proof.
  intros Hext Hsize Hlt. unfold _validate_image. rewrite Hext, Hsize. simpl.
  destruct (Z.ltb_spec max_image_size size); [done | lia].
Qed.

Lemma _validate_image_raises env path v :
  has_allowed_extension path = true →
  os_path_getsize env path = None →
  _validate_image env path v = None.
Proof. intros Hext Hsize. unfold _validate_image. by rewrite Hext, Hsize. Qed.

(** X13: the verdict of [_validate_image].  Whenever it returns, it returns
    [True] exactly when the lower-cased path ends in one of the four
    suffixes and the size on disk is at most 25 * 1024 * 1024 bytes; and a
    [True] verdict comes with an unchanged view. *)
Theorem validate_image_verdict (env : Env) (path : string) (v v' : HomeView) (b : bool) :
  _validate_image env path v = Some (b, v') →
  (b = true ↔ has_allowed_extension path = true
              ∧ ∃ size, os_path_getsize env path = Some size
                        ∧ (size ≤ 25 * 1024 * 1024)%Z)
  ∧ (b = true → v' = v).
Proof.
  intros Hval.
  destruct (has_allowed_extension path) eqn:Hext.
  - destruct (os_path_getsize env path) as [size|] eqn:Hsize.
    + destruct (Z.le_gt_cases size max_image_size) as [Hle|Hgt].
      * rewrite (_validate_image_within_limit env path size v Hext Hsize Hle) in Hval.
        injection Hval as <- <-. split; [|done]. split; [|done].
        intros _. split; [done|]. by exists size.
      * rewrite (_validate_image_too_large env path size v Hext Hsize Hgt) in Hval.
        injection Hval as <- <-. split; [|done]. split; [done|].
        intros (_ & size' & [= <-] & Hle). unfold max_image_size in Hgt. lia.
    + by rewrite (_validate_image_raises env path v Hext Hsize) in Hval.
  - rewrite (_validate_image_bad_extension env path v Hext) in Hval.
    injection Hval as <- <-. split; [|done]. split; [done|]. by intros [? _].
Qed.

Lemma validate_image_verdict_witness :
  _validate_image demo_env "photo.JPG" (HomeView_init None)
  = Some (true, HomeView_init None)
  ∧ (true = true
     ↔ has_allowed_extension "photo.JPG" = true
       ∧ ∃ size, os_path_getsize demo_env "photo.JPG" = Some size
                 ∧ (size ≤ 25 * 1024 * 1024)%Z).
Proof.
  assert (H : _validate_image demo_env "photo.JPG" (HomeView_init None)
              = Some (true, HomeView_init None))
    by (apply (_validate_image_within_limit demo_env "photo.JPG" 26214400%Z);
        [reflexivity | reflexivity | by vm_compute]).
  split; [exact H|].
  exact (proj1 (validate_image_verdict demo_env "photo.JPG" _ _ true H)).
Defined.

(** X14: when [_validate_image] raises.  The only exception that escapes is
    the one of [os.path.getsize], and only for a path with an allowed
    extension: the extension is tested first, so a path with another
    extension is rejected without the file being looked at, whether it
    exists or not. *)
Theorem validate_image_raises_iff (env : Env) (path : string) (v : HomeView) :
  _validate_image env path v = None
  ↔ has_allowed_extension path = true ∧ os_path_getsize env path = None.
Proof.
  split.
  - intros Hval. destruct (has_allowed_extension path) eqn:Hext.
    + split; [done|]. destruct (os_path_getsize env path) as [size|] eqn:Hsize; [|done].
      destruct (Z.le_gt_cases size max_image_size) as [Hle|Hgt].
      * by rewrite (_validate_image_within_limit env path size v Hext Hsize Hle) in Hval.
      * by rewrite (_validate_image_too_large env path size v Hext Hsize Hgt) in Hval.
    + by rewrite (_validate_image_bad_extension env path v Hext) in Hval.
  - intros [Hext Hsize]. by apply _validate_image_raises.
Qed.

(** X15: a file over the limit.  For a path with an allowed extension whose
    size exceeds 25 * 1024 * 1024 bytes, [_validate_image] reports "File too
    large. Maximum size is 25 MB." and returns [False], and [choose_file]
    assigns nothing: selected file, preview image and preview box stay. *)
Theorem oversized_image_rejected (env : Env) (path : string) (size : Z) (v : HomeView) :
  has_allowed_extension path = true →
  os_path_getsize env path = Some size →
  (25 * 1024 * 1024 < size)%Z →
  _validate_image env path v = Some (false, _handle_error too_large_msg v)
  ∧ ∃ v2,
      choose_file env path v = Some v2
      ∧ (widget_counter v, ErrorLabel too_large_msg) ∈ output_frame v2
      ∧ selected_file v2 = selected_file v
      ∧ preview_image v2 = preview_image v
      ∧ preview_box v2 = preview_box v
      ∧ _preview_img v2 = _preview_img v.
Proof.
  intros Hext Hsize Hlt.
  pose proof (_validate_image_too_large env path size v Hext Hsize Hlt) as Hval.
  split; [done|]. exists (_handle_error too_large_msg v). split.
  - unfold choose_file. destruct (String.eqb_spec path "") as [->|Hne]; [done|].
    by rewrite Hval.
  - rewrite handle_error_output_frame, handle_error_selected_file,
      handle_error_preview_image, handle_error_preview_box, handle_error_preview_img.
    split; [set_solver | done].
Qed.

Lemma oversized_image_rejected_witness :
  (has_allowed_extension "huge.bmp" = true
   ∧ os_path_getsize big_env "huge.bmp" = Some 26214401%Z)
  ∧ _validate_image big_env "huge.bmp" (HomeView_init None)
    = Some (false, _handle_error too_large_msg (HomeView_init None)).
Proof.
  split; [by split|].
  refine (proj1 (oversized_image_rejected big_env "huge.bmp" 26214401%Z
                   (HomeView_init None) eq_refl eq_refl _)).
  lia.
Defined.

(** ** Choosing a file, continued *)

Lemma choose_file_valid env f size v :
  has_allowed_extension f = true →
  os_path_getsize env f = Some size →
  (size ≤ max_image_size)%Z →
  choose_file env f v
  = match Image_open env f with
    | Some pil =>
        match _set_preview env pil
                (set_preview_image (Some pil) (set_selected_file (Some f) v)) with
        | Some v' => Some v'
        | None =>
            Some (let v := _handle_error "Invalid image file"
                             (set_preview_image (Some pil) (set_selected_file (Some f) v)) in
                  set_preview_box (label_configure_text f (preview_box v)) v)
        end
    | None =>
        Some (let v := _handle_error "Invalid image file" (set_selected_file (Some f) v) in
              set_preview_box (label_configure_text f (preview_box v)) v)
    end.
Proof.
  intros Hext Hsize Hle. unfold choose_file.
  destruct (String.eqb_spec f "") as [->|Hne]; [done|].
  by rewrite (_validate_image_within_limit env f size v Hext Hsize Hle).
Qed.

(** X16: a good image.  For a path that passes validation, that PIL opens
    and whose pixels load, [choose_file] selects the path, keeps the opened
    image as preview image, shows its 320 by 240 thumbnail with no text in
    the preview box, and reports nothing: output panel, last error and run
    state are untouched. *)
Theorem choose_file_accepts_image (env : Env) (f : string) (size : Z) (v : HomeView) :
  has_allowed_extension f = true →
  os_path_getsize env f = Some size →
  (size ≤ 25 * 1024 * 1024)%Z →
  image_opens env f = true →
  image_loads env f = true →
  ∃ v',
    choose_file env f v = Some v'
    ∧ selected_file v' = Some f
    ∧ preview_image v' = Some (ImageFile f)
    ∧ preview_box v'
      = {| lbl_image := Some (PhotoImage (ImageFile f) (320, 240)%Z); lbl_text := "" |}
    ∧ _preview_img v' = Some (PhotoImage (ImageFile f) (320, 240)%Z)
    ∧ output_frame v' = output_frame v
    ∧ app v' = app v
    ∧ running v' = running v
    ∧ run_btn v' = run_btn v.
Proof.
  intros Hext Hsize Hle Hopens Hloads.
  rewrite (choose_file_valid env f size v Hext Hsize Hle).
  unfold Image_open. rewrite Hopens. unfold _set_preview, render. rewrite Hloads.
  eexists. split; [reflexivity|]. by repeat split.
Qed.

Lemma choose_file_accepts_image_witness :
  (has_allowed_extension "photo.JPG" = true
   ∧ os_path_getsize demo_env "photo.JPG" = Some 26214400%Z
   ∧ image_opens demo_env "photo.JPG" = true
   ∧ image_loads demo_env "photo.JPG" = true)
  ∧ ∃ v',
      choose_file demo_env "photo.JPG" (HomeView_init None) = Some v'
      ∧ selected_file v' = Some "photo.JPG"
      ∧ preview_image v' = Some (ImageFile "photo.JPG")
      ∧ preview_box v'
        = {| lbl_image := Some (PhotoImage (ImageFile "photo.JPG") (320, 240)%Z);
             lbl_text := "" |}
      ∧ _preview_img v' = Some (PhotoImage (ImageFile "photo.JPG") (320, 240)%Z)
      ∧ output_frame v' = output_frame (HomeView_init None)
      ∧ app v' = app (HomeView_init None)
      ∧ running v' = running (HomeView_init None)
      ∧ run_btn v' = run_btn (HomeView_init None).
Proof.
  split; [by repeat split|].
  apply (choose_file_accepts_image demo_env "photo.JPG" 26214400%Z (HomeView_init None));
    [reflexivity | reflexivity | lia | reflexivity | reflexivity].
Defined.

Lemma error_path_then_box f w :
  selected_file (set_preview_box (label_configure_text f
                   (preview_box (_handle_error "Invalid image file" w)))
                   (_handle_error "Invalid image file" w)) = selected_file w
  ∧ preview_image (set_preview_box (label_configure_text f
                     (preview_box (_handle_error "Invalid image file" w)))
                     (_handle_error "Invalid image file" w)) = preview_image w
  ∧ preview_box (set_preview_box (label_configure_text f
                   (preview_box (_handle_error "Invalid image file" w)))
                   (_handle_error "Invalid image file" w))
    = {| lbl_image := lbl_image (preview_box w); lbl_text := f |}
  ∧ _preview_img (set_preview_box (label_configure_text f
                    (preview_box (_handle_error "Invalid image file" w)))
                    (_handle_error "Invalid image file" w)) = _preview_img w
  ∧ running (set_preview_box (label_configure_text f
               (preview_box (_handle_error "Invalid image file" w)))
               (_handle_error "Invalid image file" w)) = running w
  ∧ task_var (set_preview_box (label_configure_text f
                (preview_box (_handle_error "Invalid image file" w)))
                (_handle_error "Invalid image file" w)) = task_var w
  ∧ controller (set_preview_box (label_configure_text f
                  (preview_box (_handle_error "Invalid image file" w)))
                  (_handle_error "Invalid image file" w)) = controller w.
Proof.
  pose proof (handle_error_selected_file "Invalid image file" w) as H1.
  pose proof (handle_error_preview_image "Invalid image file" w) as H2.
  pose proof (handle_error_preview_box "Invalid image file" w) as H3.
  pose proof (handle_error_preview_img "Invalid image file" w) as H4.
  pose proof (handle_error_running "Invalid image file" w) as H5.
  destruct (handle_error_frame "Invalid image file" w) as (H6 & _).
  pose proof (handle_error_controller "Invalid image file" w) as H7.
  revert H1 H2 H3 H4 H5 H6 H7. generalize (_handle_error "Invalid image file" w).
  intros h H1 H2 H3 H4 H5 H6 H7. simpl. by rewrite H1, H2, H3, H4, H5, H6, H7.
Qed.

(** X17: a file that opens but does not load.  When [Image.open] succeeds
    and rendering the preview raises, [choose_file] has already assigned
    both attributes: the new path is selected and the new, unloadable image
    is the preview image, while the preview box keeps the previous picture
    (and [_preview_img] the previous photo) and gets the path as text. *)
Theorem choose_file_unloadable_image (env : Env) (f : string) (size : Z) (v : HomeView) :
  has_allowed_extension f = true →
  os_path_getsize env f = Some size →
  (size ≤ 25 * 1024 * 1024)%Z →
  image_opens env f = true →
  image_loads env f = false →
  ∃ v',
    choose_file env f v = Some v'
    ∧ selected_file v' = Some f
    ∧ preview_image v' = Some (ImageFile f)
    ∧ preview_box v' = {| lbl_image := lbl_image (preview_box v); lbl_text := f |}
    ∧ _preview_img v' = _preview_img v.
Proof.
  intros Hext Hsize Hle Hopens Hloads.
  rewrite (choose_file_valid env f size v Hext Hsize Hle).
  unfold Image_open. rewrite Hopens. unfold _set_preview, render. rewrite Hloads.
  cbn [mbind option_bind]. eexists. split; [reflexivity|]. cbv zeta.
  destruct (error_path_then_box f
              (set_preview_image (Some (ImageFile f)) (set_selected_file (Some f) v)))
    as (-> & -> & -> & -> & _).
  done.
Qed.

Lemma choose_file_unloadable_image_witness :
  (has_allowed_extension "truncated.png" = true
   ∧ os_path_getsize big_env "truncated.png" = Some 2048%Z
   ∧ image_opens big_env "truncated.png" = true
   ∧ image_loads big_env "truncated.png" = false)
  ∧ ∃ v',
      choose_file big_env "truncated.png" (HomeView_init None) = Some v'
      ∧ selected_file v' = Some "truncated.png"
      ∧ preview_image v' = Some (ImageFile "truncated.png")
      ∧ preview_box v'
        = {| lbl_image := lbl_image (preview_box (HomeView_init None));
             lbl_text := "truncated.png" |}
      ∧ _preview_img v' = _preview_img (HomeView_init None).
Proof.
  split; [by repeat split|].
  apply (choose_file_unloadable_image big_env "truncated.png" 2048%Z (HomeView_init None));
    [reflexivity | reflexivity | lia | reflexivity | reflexivity].
Defined.

(** X18: a file that failed to open is still what the next run sends.
    After [choose_file], on a view that is not running, for a validated
    path that [Image.open] rejects, a [run_task] for the image task
    dispatches that very path to the controller. *)
Theorem undecodable_file_is_dispatched (env : Env) (f : string) (size : Z) (v : HomeView) :
  has_allowed_extension f = true →
  os_path_getsize env f = Some size →
  (size ≤ 25 * 1024 * 1024)%Z →
  Image_open env f = None →
  running v = false →
  startswith (lower (task_var v)) "image" = true →
  ∃ v',
    choose_file env f v = Some v'
    ∧ controller (run_task v') = controller v ++ [run_image_caption (PyStr f)].
Proof.
  intros Hext Hsize Hle Hopen Hnotrunning Htask.
  rewrite (choose_file_valid env f size v Hext Hsize Hle), Hopen.
  eexists. split; [reflexivity|]. cbv zeta.
  destruct (error_path_then_box f (set_selected_file (Some f) v))
    as (Hfile & _ & _ & _ & Hrun & Htask' & Hcontroller).
  revert Hfile Hrun Htask' Hcontroller.
  generalize (set_preview_box
                (label_configure_text f
                   (preview_box (_handle_error "Invalid image file"
                                   (set_selected_file (Some f) v))))
                (_handle_error "Invalid image file" (set_selected_file (Some f) v))).
  intros u Hfile Hrun Htask' Hcontroller. simpl in Hfile, Hrun, Htask', Hcontroller.
  rewrite Hnotrunning in Hrun.
  assert (Hne : f ≠ "").
  { intros ->. by rewrite no_extension_of_empty_path in Hext. }
  assert (Htruthy : truthy_str (Some f) = true).
  { simpl. by destruct (String.eqb_spec f ""). }
  assert (Hr : run_task u
    = dispatch (run_image_caption (PyStr f)) (run_started (remember_and_disable_all u))).
  { rewrite (run_task_not_running u Hrun). cbv zeta.
    by rewrite Htask', Htask, Hfile, Htruthy. }
  destruct (dispatched_view _ u Hr) as (-> & _). by rewrite Hcontroller.
Qed.

Lemma undecodable_file_is_dispatched_witness :
  (has_allowed_extension "broken.png" = true
   ∧ Image_open demo_env "broken.png" = None)
  ∧ ∃ v',
      choose_file demo_env "broken.png" (HomeView_init None) = Some v'
      ∧ controller (run_task v')
        = controller (HomeView_init None) ++ [run_image_caption (PyStr "broken.png")].
Proof.
  split; [by split|].
  apply (undecodable_file_is_dispatched demo_env "broken.png" 2048%Z (HomeView_init None));
    [reflexivity | reflexivity | lia | reflexivity | reflexivity | reflexivity].
Defined.

(** ** The sample image, continued *)

Lemma use_sample_image_cases env v :
  use_sample_image env v
  = if os_path_exists env (sample_path env) && image_opens env (sample_path env)
       && image_loads env (sample_path env)
    then Some (sample_view env v) else Some (fallback_view v).
Proof.
  unfold use_sample_image, Image_open, _set_preview, render.
  destruct (os_path_exists env (sample_path env)); [|done].
  destruct (image_opens env (sample_path env)); [|done]. simpl.
  by destruct (image_loads env (sample_path env)).
Qed.


(** X20: after "Use Sample" an image run is never rejected.  Whatever the
    state of the bundled file, a [run_task] for the image task that follows
    [use_sample_image] on a view that is not running sends exactly one
    request to the controller. *)
Theorem sample_image_always_runs (env : Env) (v v' : HomeView) :
  running v = false →
  startswith (lower (task_var v)) "image" = true →
  use_sample_image env v = Some v' →
  ∃ image_input,
    controller (run_task v') = controller v ++ [run_image_caption image_input]
    ∧ (image_input = PyStr (sample_path env) ∨ ∃ img, image_input = PyImage img)
    ∧ running (run_task v') = true.
Proof.
  intros Hrun Htask Hsample. rewrite use_sample_image_cases in Hsample.
  assert (Hv' : v' = sample_view env v ∨ v' = fallback_view v).
  { destruct (_ && _) in Hsample; injection Hsample as <-; [by left | by right]. }
  assert (Hrun' : running v' = false) by (by destruct Hv' as [->| ->]).
  assert (Htask' : task_var v' = task_var v) by (by destruct Hv' as [->| ->]).
  assert (Hcontroller : controller v' = controller v) by (by destruct Hv' as [->| ->]).
  assert (Himage : ∃ img, preview_image v' = Some img)
    by (destruct Hv' as [->| ->]; by eexists).
  assert (Hfile : selected_file v' = Some (sample_path env) ∨ selected_file v' = None)
    by (destruct Hv' as [->| ->]; [by left | by right]).
  destruct Himage as [img Himage].
  pose proof (run_task_not_running v' Hrun') as Hr. cbv zeta in Hr.
  rewrite Htask', Htask, Himage in Hr.
  rewrite orb_true_r in Hr. cbn [negb] in Hr.
  destruct (dispatched_view _ v' Hr) as (-> & -> & _). rewrite Hcontroller.
  eexists. split; [reflexivity|]. split; [|done].
  destruct Hfile as [-> | ->]; simpl.
  - destruct (String.eqb (sample_path env) ""); [right; by eexists | by left].
  - right. by eexists.
Qed.

Lemma sample_image_always_runs_witness :
  (running (HomeView_init None) = false
   ∧ use_sample_image demo_env (HomeView_init None)
     = Some (fallback_view (HomeView_init None)))
  ∧ ∃ image_input,
      controller (run_task (fallback_view (HomeView_init None)))
      = controller (HomeView_init None) ++ [run_image_caption image_input]
      ∧ (image_input = PyStr (sample_path demo_env) ∨ ∃ img, image_input = PyImage img)
      ∧ running (run_task (fallback_view (HomeView_init None))) = true.
Proof.
  assert (H : use_sample_image demo_env (HomeView_init None)
              = Some (fallback_view (HomeView_init None))) by reflexivity.
  split; [by split|].
  exact (sample_image_always_runs demo_env (HomeView_init None) _ eq_refl eq_refl H).
Defined.

(** ** Clearing the view *)

Lemma clear_inputs_facts v :
  running (clear_inputs v) = false
  ∧ run_btn (clear_inputs v) = {| btn_state := normal; btn_text := "Run" |}
  ∧ controller (clear_inputs v) = controller v
  ∧ selected_file (clear_inputs v) = None
  ∧ preview_image (clear_inputs v) = None
  ∧ preview_box (clear_inputs v) = {| lbl_image := None; lbl_text := "320×240 preview" |}
  ∧ content (text_input (clear_inputs v)) = placeholder_text
  ∧ output_frame (clear_inputs v) = []
  ∧ _preview_img (clear_inputs v) = _preview_img v
  ∧ task_var (clear_inputs v) = task_var v
  ∧ app (clear_inputs v) = set_status "Ready" false <$> app v.
Proof.
  unfold clear_inputs. cbv zeta.
  match goal with
  | |- context [_reset_run_state ?w] =>
      destruct (reset_frame w) as (H1 & _ & H3 & H4 & H5 & _ & H7 & _ & _ & H10 & _ & H12
                                   & H13 & _);
      pose proof (reset_running w) as H14;
      pose proof (reset_run_btn w) as H15;
      pose proof (reset_app w) as H16;
      revert H1 H3 H4 H5 H7 H10 H12 H13 H14 H15 H16;
      generalize (_reset_run_state w)
  end.
  intros u H1 H3 H4 H5 H7 H10 H12 H13 H14 H15 H16.
  simpl in *. by rewrite H1, H3, H4, H5, H7, H10, H12, H13, H14, H15, H16.
Qed.

(** X21: what "Clear" does and does not do.  [clear_inputs] drops the
    selected file and the preview image, resets the preview box and the
    output panel, puts the placeholder back, and leaves the view ready
    (flag cleared, run control enabled, status "Ready").  It sends nothing
    to the controller and withdraws nothing from it -- a request in flight
    stays in flight -- and it keeps the attribute [_preview_img]. *)
Theorem clear_inputs_resets_view (v : HomeView) :
  running (clear_inputs v) = false
  ∧ run_btn (clear_inputs v) = {| btn_state := normal; btn_text := "Run" |}
  ∧ controller (clear_inputs v) = controller v
  ∧ selected_file (clear_inputs v) = None
  ∧ preview_image (clear_inputs v) = None
  ∧ preview_box (clear_inputs v) = {| lbl_image := None; lbl_text := "320×240 preview" |}
  ∧ content (text_input (clear_inputs v)) = placeholder_text
  ∧ output_frame (clear_inputs v) = []
  ∧ _preview_img (clear_inputs v) = _preview_img v
  ∧ app (clear_inputs v) = set_status "Ready" false <$> app v.
Proof.
  destruct (clear_inputs_facts v) as (H1 & H2 & H3 & H4 & H5 & H6 & H7 & H8 & H9 & _ & H11).
  by repeat split.
Qed.

(** X22: after "Clear", "Run" dispatches nothing.  For either task, a
    [run_task] right after [clear_inputs] ends in the error path -- "No
    image selected" or "No text entered" -- and the controller receives no
    request. *)
Theorem run_after_clear_dispatches_nothing (v : HomeView) :
  controller (run_task (clear_inputs v)) = controller v
  ∧ run_task (clear_inputs v)
    = destroy_output (widget_counter (clear_inputs v))
        (_handle_error
           (if startswith (lower (task_var v)) "image"
            then "No image selected" else "No text entered")
           (run_started (remember_and_disable_all (clear_inputs v)))).
Proof.
  destruct (clear_inputs_facts v) as (Hrun & _ & Hcontroller & Hfile & Himage & _ & Htext
                                      & _ & _ & Htask & _).
  assert (Hr : run_task (clear_inputs v)
    = destroy_output (widget_counter (clear_inputs v))
        (_handle_error
           (if startswith (lower (task_var v)) "image"
            then "No image selected" else "No text entered")
           (run_started (remember_and_disable_all (clear_inputs v))))).
  { rewrite (run_task_not_running _ Hrun). cbv zeta.
    rewrite Htask, Hfile, Himage, strip_text_get, Htext.
    destruct (startswith (lower (task_var v)) "image"); [done|].
    assert (Hstrip : strip placeholder_text = placeholder_text) by (vm_compute; reflexivity).
    rewrite Hstrip.
    rewrite (bool_decide_eq_true_2 (placeholder_text = placeholder_text)) by done.
    by rewrite orb_true_r. }
  split; [|done]. rewrite Hr.
  destruct (run_started_facts (clear_inputs v)) as (Hout & Hcounter & Hc & _).
  destruct (reject_locally
              (if startswith (lower (task_var v)) "image"
               then "No image selected" else "No text entered") _ _ Hout Hcounter)
    as (_ & _ & _ & -> & _).
  by rewrite Hc.
Qed.

(** ** Task selection, continued *)

(** X23: after any toggle exactly one input panel is shown, and which one
    depends on the task label alone: the image panel when the lower-cased
    label starts with "image", the text panel for every other label (the
    empty one included); the text widget is sized 0 by 0 in the first case
    and 40 by 4 in the second.  Toggling twice is toggling once. *)
Theorem toggle_inputs_one_panel (v : HomeView) :
  image_input_frame (_toggle_inputs v) = startswith (lower (task_var v)) "image"
  ∧ text_input_frame (_toggle_inputs v) = negb (image_input_frame (_toggle_inputs v))
  ∧ (width (text_input (_toggle_inputs v)), height (text_input (_toggle_inputs v)))
    = (if startswith (lower (task_var v)) "image" then (0, 0)%Z else (40, 4)%Z)
  ∧ _toggle_inputs (_toggle_inputs v) = _toggle_inputs v.
Proof.
  unfold _toggle_inputs. cbv zeta.
  destruct (startswith (lower (task_var v)) "image") eqn:E; simpl; by rewrite E.
Qed.

(** ** Responsive layout, continued *)

(** X24: the last resize wins.  A resize event overrides whatever an
    earlier one set up, and no resize touches anything but the layout. *)
Theorem on_resize_last_wins (w1 w2 : Z) (v : HomeView) :
  _on_resize w2 (_on_resize w1 v) = _on_resize w2 v
  ∧ _on_resize w2 v = set_grid (grid (_on_resize w2 v)) v.
Proof.
  split; [|apply _on_resize_only_grid].
  unfold _on_resize. by repeat case_match.
Qed.

(** ** The main window *)

(** X25: [center_window] centres the window.  The geometry keeps the
    measured size (1000 by 700 standing in for a measurement of 0), and the
    centre of the window is within half a pixel of the centre of the screen
    on both axes. *)
Theorem center_window_centres (winfo_width winfo_height screenwidth screenheight : Z) :
  let g := center_window winfo_width winfo_height screenwidth screenheight in
  geo_w g = (if (winfo_width =? 0)%Z then 1000 else winfo_width)%Z
  ∧ geo_h g = (if (winfo_height =? 0)%Z then 700 else winfo_height)%Z
  ∧ (screenwidth - 1 ≤ 2 * geo_x g + geo_w g ≤ screenwidth + 1)%Z
  ∧ (screenheight - 1 ≤ 2 * geo_y g + geo_h g ≤ screenheight + 1)%Z.
Proof.
  unfold center_window. cbn [geo_w geo_h geo_x geo_y].
  split; [done|]. split; [done|].
  split.
  - pose proof (Z.div_mod screenwidth 2).
    pose proof (Z.mod_pos_bound screenwidth 2).
    pose proof (Z.div_mod (if (winfo_width =? 0)%Z then 1000 else winfo_width)%Z 2).
    pose proof (Z.mod_pos_bound (if (winfo_width =? 0)%Z then 1000 else winfo_width)%Z 2).
    lia.
  - pose proof (Z.div_mod screenheight 2).
    pose proof (Z.mod_pos_bound screenheight 2).
    pose proof (Z.div_mod (if (winfo_height =? 0)%Z then 700 else winfo_height)%Z 2).
    pose proof (Z.mod_pos_bound (if (winfo_height =? 0)%Z then 700 else winfo_height)%Z 2).
    lia.
Qed.

(** X26: a window no larger than the screen is placed wholly on it: for a
    measured size between 1 and the screen size on each axis, the offsets
    are not negative and the window ends at or before the screen's edge. *)
Theorem center_window_on_screen (winfo_width winfo_height screenwidth screenheight : Z) :
  (0 < winfo_width ≤ screenwidth)%Z →
  (0 < winfo_height ≤ screenheight)%Z →
  let g := center_window winfo_width winfo_height screenwidth screenheight in
  (0 ≤ geo_x g ∧ geo_x g + geo_w g ≤ screenwidth)%Z
  ∧ (0 ≤ geo_y g ∧ geo_y g + geo_h g ≤ screenheight)%Z.
Proof.
  intros Hw Hh. unfold center_window. cbn [geo_w geo_h geo_x geo_y].
  destruct (Z.eqb_spec winfo_width 0); [lia|].
  destruct (Z.eqb_spec winfo_height 0); [lia|].
  pose proof (Z.div_mod screenwidth 2). pose proof (Z.mod_pos_bound screenwidth 2).
  pose proof (Z.div_mod winfo_width 2). pose proof (Z.mod_pos_bound winfo_width 2).
  pose proof (Z.div_mod screenheight 2). pose proof (Z.mod_pos_bound screenheight 2).
  pose proof (Z.div_mod winfo_height 2). pose proof (Z.mod_pos_bound winfo_height 2).
  lia.
Qed.

Lemma center_window_on_screen_witness :
  ((0 < 1000 ≤ 1920)%Z ∧ (0 < 700 ≤ 1080)%Z)
  ∧ (0 ≤ geo_x (center_window 1000 700 1920 1080)
     ∧ geo_x (center_window 1000 700 1920 1080) + geo_w (center_window 1000 700 1920 1080)
       ≤ 1920)%Z.
Proof.
  assert (H1 : (0 < 1000 ≤ 1920)%Z) by lia.
  assert (H2 : (0 < 700 ≤ 1080)%Z) by lia.
  split; [by split|].
  exact (proj1 (center_window_on_screen 1000 700 1920 1080 H1 H2)).
Defined.

(** X27: the navigation bar after [switch_nav] has restyled it.  The button
    of a tab has the active style exactly when the tab is the target, so
    exactly one button is active for each of the four tabs and none for any
    other target; the styles the buttons had before play no role. *)
Theorem switch_nav_one_active (target : string) (n : NavBar) :
  active_nav (switch_nav_styles target n) = target
  ∧ nav_buttons (switch_nav_styles target n) = map (nav_style target) nav_keys
  ∧ (∀ key, nav_style target key = active_style ↔ key = target)
  ∧ length (filter (λ s, s = active_style) (nav_buttons (switch_nav_styles target n)))
    = (if bool_decide (target ∈ nav_keys) then 1 else 0).
Proof.
  split; [done|]. split; [done|].
  assert (Hstyle : ∀ key, nav_style target key = active_style ↔ key = target).
  { intros key. unfold nav_style. destruct (String.eqb_spec key target); split; done. }
  split; [done|].
  assert (Hcount : ∀ keys, NoDup keys →
            length (filter (λ s, s = active_style) (map (nav_style target) keys))
            = if bool_decide (target ∈ keys) then 1 else 0).
  { induction keys as [|k keys IH]; intros Hnd; [done|].
    apply NoDup_cons in Hnd as [Hfresh Hnd]. cbn [map].
    destruct (decide (k = target)) as [->|Hne].
    - rewrite filter_cons_True by by apply Hstyle.
      rewrite bool_decide_eq_true_2 by set_solver.
      cbn [length]. rewrite IH by done. by rewrite bool_decide_eq_false_2.
    - rewrite filter_cons_False by (by rewrite Hstyle).
      rewrite IH by done.
      by rewrite (bool_decide_ext (target ∈ k :: keys) (target ∈ keys)) by set_solver. }
  apply (Hcount nav_keys). by apply (bool_decide_unpack (NoDup nav_keys)).
Qed.

(** ** Extensions *)

(** X28: the extension test ignores letter case and needs the dot.  Every
    path made of any stem, the empty one included, followed by [.png],
    [.jpg], [.jpeg] or [.bmp] in any mix of upper and lower case is
    accepted. *)
Theorem allowed_extension_any_case (stem suffix : string) :
  lower suffix ∈ allowed_suffixes → has_allowed_extension (stem +:+ suffix) = true.
Proof. apply has_allowed_extension_suffix. Qed.

Lemma allowed_extension_any_case_witness :
  lower ".JpEg" ∈ allowed_suffixes
  ∧ has_allowed_extension ("/home/user/Holiday Photo" +:+ ".JpEg") = true.
Proof.
  assert (H : lower ".JpEg" ∈ allowed_suffixes)
    by (apply (bool_decide_unpack _); vm_compute; exact I).
  split; [exact H|].
  exact (allowed_extension_any_case "/home/user/Holiday Photo" ".JpEg" H).
Defined.
